(** * Verification of the NFL data pipeline scripts

    Shallow embedding of [src/scripts/nfl-data-pipeline.py] (class
    [NFLDataPipeline]: the batched Supabase uploader [update_supabase_database],
    the fetch steps and [run_full_pipeline]) and of
    [src/scripts/simple-nfl-data-fetch.py] ([run_simple_pipeline]).

    Python's effects are modelled by a state-and-exception monad [M]:
    - the state holds the chronological trace of observable events (console
      output, calls into [nfl_data_py], file writes, HTTP POSTs, each with
      the outcome the outside world gave) and a heap of Python lists, so that
      the caller's [data] list is an object the uploader reads through a
      reference;
    - the outside world ([requests.post], the [nfl_data_py] importers, file
      writes) is an environment of oracles that may answer anything, and may
      raise, depending on the whole history of the run. *)

From Stdlib Require Import String List ZArith Arith Lia Bool.
Import ListNotations.
Open Scope string_scope.

(** ** Data model *)

(** JSON-compatible scalar values found in records. *)
Inductive jvalue : Type :=
| JStr (s : string)
| JInt (z : Z)
| JNull.

(** A record ([Dict] in the source): field name to value. *)
Definition record := list (string * jvalue).

(** A [pd.DataFrame], seen through its rows as records. *)
Definition frame := list record.

(** A Python exception (subclass of [Exception]) with its message. *)
Inductive exn : Type := PyExc (msg : string).

Definition exn_msg (e : exn) : string := match e with PyExc m => m end.

(** Outcome of a Python computation: a value or a raised exception. *)
Inductive res (A : Type) : Type :=
| Ok (a : A)
| Exc (e : exn).
Arguments Ok {A} a.
Arguments Exc {A} e.

(** The part of a [requests.Response] the uploader reads. *)
Record response := mkResponse { status_code : Z; text : string }.

(** Reference to a Python list object in the heap. *)
Definition loc := nat.

(** Observable events, each with the outcome the outside world returned.
    An [ECall] lists the [columns] argument of the call, [[]] when the
    call passes none. *)
Inductive event : Type :=
| EPrint (msg : string)
| ECall (fn : string) (years : list Z) (columns : list string) (outcome : res frame)
| EWrite (path : string) (outcome : res unit)
| EPost (url : string) (headers : list (string * string)) (body : list record)
        (outcome : res response).

(** The outside world: every answer may depend on the history so far. *)
Record env := mkEnv {
  nfl_api : list event -> string -> list Z -> list string -> res frame;
  write_file : list event -> string -> res unit;
  http_post : list event -> string -> list (string * string) -> list record -> res response
}.

Record state := mkState { trace : list event; heap : list (list record) }.

(** ** The monad *)

Definition M (A : Type) : Type := state -> res A * state.

Definition ret {A} (a : A) : M A := fun s => (Ok a, s).

Definition bind {A B} (m : M A) (f : A -> M B) : M B :=
  fun s => match m s with
           | (Ok a, s') => f a s'
           | (Exc e, s') => (Exc e, s')
           end.

Notation "x <- m ;; k" := (bind m (fun x => k))
  (at level 61, m at next level, right associativity).
Notation "m ;; k" := (bind m (fun _ => k)) (at level 61, right associativity).

Definition raise {A} (e : exn) : M A := fun s => (Exc e, s).

(** [try: m except Exception as e: h e] *)
Definition try_except {A} (m : M A) (h : exn -> M A) : M A :=
  fun s => match m s with
           | (Exc e, s') => h e s'
           | r => r
           end.

Definition emit (ev : event) (s : state) : state :=
  mkState (trace s ++ [ev]) (heap s).

Definition print (msg : string) : M unit := fun s => (Ok tt, emit (EPrint msg) s).

(** Python lists in the heap: [len(xs)] and the slice [xs[i:j]], which
    copies into a fresh list. *)
Definition read_list (l : loc) (s : state) : res (list record) :=
  match nth_error (heap s) l with
  | Some xs => Ok xs
  | None => Exc (PyExc "invalid reference")
  end.

Definition py_len (l : loc) : M nat :=
  fun s => match read_list l s with
           | Ok xs => (Ok (length xs), s)
           | Exc e => (Exc e, s)
           end.

Definition alloc (xs : list record) (s : state) : loc * state :=
  (length (heap s), mkState (trace s) (heap s ++ [xs])).

Definition py_slice (l : loc) (i j : nat) : M loc :=
  fun s => match read_list l s with
           | Ok xs => let (l', s') := alloc (firstn (j - i) (skipn i xs)) s in (Ok l', s')
           | Exc e => (Exc e, s)
           end.

Section World.
Variable w : env.

(** [requests.post(url, headers=headers, json=batch)]: the body is the
    JSON serialisation of the list [batch] refers to. *)
Definition requests_post (url : string) (headers : list (string * string)) (batch : loc)
  : M response :=
  fun s => match read_list batch s with
           | Ok body =>
               let o := http_post w (trace s) url headers body in
               (o, emit (EPost url headers body o) s)
           | Exc e => (Exc e, s)
           end.

End World.

(** ** Helpers for Python built-ins *)

From Stdlib Require Import Ascii.

(** [str(n)] for a natural number (decimal). *)
Fixpoint show_nat_go (fuel n : nat) (acc : string) : string :=
  match fuel with
  | O => acc
  | S f =>
      let acc' := String (ascii_of_nat (48 + n mod 10)) acc in
      if Nat.ltb n 10 then acc' else show_nat_go f (n / 10) acc'
  end.

Definition show_nat (n : nat) : string := show_nat_go (S n) n "".

(** [range(start, stop, step)] for a positive [step]; the fuel
    [stop - start] bounds the number of elements. *)
Fixpoint range_go (fuel start stop step : nat) : list nat :=
  match fuel with
  | O => []
  | S f => if Nat.ltb start stop then start :: range_go f (start + step) stop step else []
  end.

Definition py_range (start stop step : nat) : list nat :=
  range_go (stop - start) start stop step.

(** [dict.get(key, default)] on a dict literal with string keys. *)
Fixpoint dict_get (d : list (string * string)) (key default : string) : string :=
  match d with
  | [] => default
  | (k, v) :: d' => if String.eqb k key then v else dict_get d' key default
  end.

(** Truthiness of an [os.getenv] result: [None] and [""] are falsy. *)
Definition py_truthy (o : option string) : bool :=
  match o with
  | Some s => negb (String.eqb s "")
  | None => false
  end.

(** [f"{o}"] for an [Optional[str]]. *)
Definition py_str (o : option string) : string :=
  match o with
  | Some s => s
  | None => "None"
  end.

(** ** [NFLDataPipeline] *)

(** The attributes set by [NFLDataPipeline.__init__]. *)
Record NFLDataPipeline := mkPipeline {
  output_dir : string;
  current_season : Z;
  supabase_url : option string;   (* os.getenv('NEXT_PUBLIC_SUPABASE_URL') *)
  supabase_key : option string    (* os.getenv('NEXT_PUBLIC_SUPABASE_ANON_KEY') *)
}.

(** [table_mapping] in [update_supabase_database]. *)
Definition table_mapping : list (string * string) :=
  [("players", "nfl_players");
   ("stats", "player_game_stats");
   ("projections", "player_projections")].

(** [response.status_code not in [200, 201]] negated. *)
Definition status_ok (r : response) : bool :=
  existsb (Z.eqb (status_code r)) [200%Z; 201%Z].

Section Uploader.
Variable w : env.

(** The [for i in range(0, len(data), batch_size)] loop of
    [update_supabase_database]; [Ok false] is the early [return False]. *)
Fixpoint batch_loop (url : string) (headers : list (string * string)) (data : loc)
    (n batch_size : nat) (idxs : list nat) : M bool :=
  match idxs with
  | [] => ret true
  | i :: rest =>
      batch <- py_slice data i (i + batch_size) ;;
      response <- requests_post w url headers batch ;;
      if negb (status_ok response) then
        print ("Error updating batch " ++ show_nat (i / batch_size + 1) ++ ": "
               ++ text response) ;;
        ret false
      else
        print ("Updated batch " ++ show_nat (i / batch_size + 1) ++ "/"
               ++ show_nat ((n + batch_size - 1) / batch_size)) ;;
        batch_loop url headers data n batch_size rest
  end.

Definition update_supabase_database (self : NFLDataPipeline) (data_type : string)
    (data : loc) : M bool :=
  if negb (py_truthy (supabase_url self)) || negb (py_truthy (supabase_key self)) then
    print "Supabase credentials not found, skipping database update" ;;
    ret false
  else
    len0 <- py_len data ;;
    print ("Updating Supabase with " ++ data_type ++ " data (" ++ show_nat len0
           ++ " records)...") ;;
    try_except
      (let key := py_str (supabase_key self) in
       let headers := [("apikey", key);
                       ("Authorization", "Bearer " ++ key);
                       ("Content-Type", "application/json");
                       ("Prefer", "return=minimal")] in
       let table_name := dict_get table_mapping data_type data_type in
       let url := py_str (supabase_url self) ++ "/rest/v1/" ++ table_name in
       let batch_size := 100 in
       n <- py_len data ;;
       ok <- batch_loop url headers data n batch_size (py_range 0 n batch_size) ;;
       if ok then
         print ("Successfully updated " ++ show_nat n ++ " " ++ data_type
                ++ " records in Supabase") ;;
         ret true
       else ret false)
      (fun e => print ("Error updating Supabase: " ++ exn_msg e) ;; ret false).

End Uploader.

(** ** The fetch steps and [run_full_pipeline] *)

Definition show_Z (z : Z) : string :=
  if Z.ltb z 0 then "-" ++ show_nat (Z.to_nat (- z)) else show_nat (Z.to_nat z).

(** [sep.join(ss)] *)
Fixpoint join (sep : string) (ss : list string) : string :=
  match ss with
  | [] => ""
  | [x] => x
  | x :: ss' => x ++ sep ++ join sep ss'
  end.

(** [str(years)] for a list of ints, e.g. [[2023, 2024]]. *)
Definition show_Z_list (zs : list Z) : string := "[" ++ join ", " (map show_Z zs) ++ "]".

(** [list(range(a, b))] on ints. *)
Definition z_range (a b : Z) : list Z :=
  map (fun k => a + Z.of_nat k)%Z (seq 0 (Z.to_nat (b - a))).

(** The comprehensive dataset of [create_player_projections_dataset]; the
    [{}] it returns on error is [EmptyDataset]. The [created_at]
    timestamp and the [records_count] lengths of the [metadata] are not
    represented. *)
Inductive projection_dataset : Type :=
| EmptyDataset
| Dataset (weekly_stats seasonal_stats advanced_metrics : frame) (seasons : list Z).

Section Pipeline.
Variable w : env.

(** A call into [nfl_data_py] ([nfl.import_rosters(years)] and the like). *)
Definition nfl_call (fn : string) (years : list Z) (columns : list string) : M frame :=
  fun s => let o := nfl_api w (trace s) fn years columns in
           (o, emit (ECall fn years columns o) s).

(** A file write: [df.to_json(path, ...)] or
    [with open(path, 'w') as f: json.dump(..., f)]. *)
Definition write_json (path : string) : M unit :=
  fun s => let o := write_file w (trace s) path in
           (o, emit (EWrite path o) s).

Variable self : NFLDataPipeline.

Definition default_years (years : option (list Z)) : list Z :=
  match years with
  | Some ys => ys
  | None => [current_season self]
  end.

Definition years_tag (years : list Z) : string := join "-" (map show_Z years).

Definition fetch_roster_data (years : option (list Z)) : M frame :=
  let years := default_years years in
  print ("Fetching roster data for " ++ show_Z_list years ++ "...") ;;
  try_except
    (rosters <- nfl_call "import_rosters" years [] ;;
     print ("Retrieved " ++ show_nat (length rosters) ++ " roster entries") ;;
     let output_path := output_dir self ++ "/rosters_" ++ years_tag years ++ ".json" in
     write_json output_path ;;
     print ("Saved roster data to " ++ output_path) ;;
     ret rosters)
    (fun e => print ("Error fetching roster data: " ++ exn_msg e) ;; ret []).

(** The [columns] requested for each [stat_type]; [None] for the general
    stats, which requests all columns. *)
Definition stat_columns (stat_type : string) : option (list string) :=
  if String.eqb stat_type "passing" then
    Some ["player_id"; "player_name"; "position"; "team"; "week"; "season";
          "completions"; "attempts"; "passing_yards"; "passing_tds"; "interceptions";
          "passing_epa"; "passing_first_downs"]
  else if String.eqb stat_type "rushing" then
    Some ["player_id"; "player_name"; "position"; "team"; "week"; "season";
          "carries"; "rushing_yards"; "rushing_tds"; "rushing_epa"; "rushing_first_downs"]
  else if String.eqb stat_type "receiving" then
    Some ["player_id"; "player_name"; "position"; "team"; "week"; "season";
          "targets"; "receptions"; "receiving_yards"; "receiving_tds"; "receiving_epa";
          "receiving_first_downs"]
  else None.

Definition fetch_player_stats (years : option (list Z)) (stat_type : string) : M frame :=
  let years := default_years years in
  print ("Fetching " ++ stat_type ++ " stats for " ++ show_Z_list years ++ "...") ;;
  try_except
    (stats <- match stat_columns stat_type with
              | Some cols => nfl_call "import_weekly_data" years cols
              | None => nfl_call "import_weekly_data" years []
              end ;;
     print ("Retrieved " ++ show_nat (length stats) ++ " " ++ stat_type ++ " stat entries") ;;
     let output_path := output_dir self ++ "/" ++ stat_type ++ "_stats_"
                        ++ years_tag years ++ ".json" in
     write_json output_path ;;
     print ("Saved " ++ stat_type ++ " stats to " ++ output_path) ;;
     ret stats)
    (fun e => print ("Error fetching " ++ stat_type ++ " stats: " ++ exn_msg e) ;; ret []).

Definition fetch_schedule_data (years : option (list Z)) : M frame :=
  let years := default_years years in
  print ("Fetching schedule data for " ++ show_Z_list years ++ "...") ;;
  try_except
    (schedule <- nfl_call "import_schedules" years [] ;;
     print ("Retrieved " ++ show_nat (length schedule) ++ " games") ;;
     let output_path := output_dir self ++ "/schedule_" ++ years_tag years ++ ".json" in
     write_json output_path ;;
     print ("Saved schedule to " ++ output_path) ;;
     ret schedule)
    (fun e => print ("Error fetching schedule: " ++ exn_msg e) ;; ret []).

Definition fetch_injury_reports : M frame :=
  print "Fetching injury reports..." ;;
  try_except
    (injuries <- nfl_call "import_injuries" [current_season self] [] ;;
     print ("Retrieved " ++ show_nat (length injuries) ++ " injury reports") ;;
     let output_path := output_dir self ++ "/injuries_" ++ show_Z (current_season self)
                        ++ ".json" in
     write_json output_path ;;
     print ("Saved injuries to " ++ output_path) ;;
     ret injuries)
    (fun e => print ("Error fetching injuries: " ++ exn_msg e) ;; ret []).

(** [import_team_desc()] takes no arguments: [years] is unused. *)
Definition fetch_team_data (years : option (list Z)) : M frame :=
  print "Fetching team data..." ;;
  try_except
    (teams <- nfl_call "import_team_desc" [] [] ;;
     print ("Retrieved " ++ show_nat (length teams) ++ " teams") ;;
     let output_path := output_dir self ++ "/teams.json" in
     write_json output_path ;;
     print ("Saved teams to " ++ output_path) ;;
     ret teams)
    (fun e => print ("Error fetching team data: " ++ exn_msg e) ;; ret []).

Definition create_player_projections_dataset (historical_years : option (list Z))
  : M projection_dataset :=
  let historical_years :=
    match historical_years with
    | Some ys => ys
    | None => z_range 2018 (current_season self + 1)
    end in
  print ("Creating projection dataset for years " ++ show_Z_list historical_years ++ "...") ;;
  try_except
    (print "Fetching historical weekly performance..." ;;
     weekly_data <- nfl_call "import_weekly_data" historical_years [] ;;
     print "Fetching seasonal stats..." ;;
     seasonal_data <- nfl_call "import_seasonal_data" historical_years [] ;;
     print "Fetching advanced metrics..." ;;
     pbp_data <- nfl_call "import_pbp_data" historical_years
                   ["player_id"; "passer_player_name"; "rusher_player_name";
                    "receiver_player_name"; "week"; "season"; "epa"; "cpoe";
                    "air_yards"; "yards_after_catch"] ;;
     let dataset := Dataset weekly_data seasonal_data pbp_data historical_years in
     let output_path := output_dir self ++ "/projection_dataset.json" in
     write_json output_path ;;
     print ("Created projection dataset with " ++ show_nat (length weekly_data)
            ++ " weekly records") ;;
     print ("Saved dataset to " ++ output_path) ;;
     ret dataset)
    (fun e => print ("Error creating projection dataset: " ++ exn_msg e) ;; ret EmptyDataset).

Definition run_full_pipeline : M unit :=
  print "Starting full NFL data pipeline..." ;;
  fetch_team_data None ;;
  fetch_roster_data (Some [current_season self]) ;;
  fetch_schedule_data (Some [current_season self]) ;;
  fetch_injury_reports ;;
  fetch_player_stats (Some [current_season self]) "passing" ;;
  fetch_player_stats (Some [current_season self]) "rushing" ;;
  fetch_player_stats (Some [current_season self]) "receiving" ;;
  create_player_projections_dataset None ;;
  print "NFL data pipeline completed successfully!" ;;
  print ("All data saved to: " ++ output_dir self) ;;
  print "Next steps:" ;;
  print "1. Review the generated data files" ;;
  print "2. Run data transformation to match our database schema" ;;
  print "3. Import into Supabase database" ;;
  print "4. Build projection models using historical data".

End Pipeline.

(** ** [SimpleNFLDataFetcher] ([simple-nfl-data-fetch.py]) *)

(** The attributes set by [SimpleNFLDataFetcher.__init__]. *)
Record SimpleNFLDataFetcher := mkFetcher {
  fetcher_output_dir : string;
  fetcher_current_season : Z
}.

(** The steps write literal sample data; the records themselves are not
    represented, only their counts, which the messages print. Every file
    is written by [with open(path, 'w') as f: json.dump(..., f)]. *)
Section Simple.
Variables (w : env) (self : SimpleNFLDataFetcher).

Definition fetch_teams_data : M unit :=
  print "Fetching NFL teams data..." ;;
  let output_path := fetcher_output_dir self ++ "/teams.json" in
  write_json w output_path ;;
  print ("Saved " ++ show_nat 32 ++ " teams to " ++ output_path).

Definition create_sample_rosters : M unit :=
  print "Creating sample roster data..." ;;
  let output_path := fetcher_output_dir self ++ "/rosters_2024.json" in
  write_json w output_path ;;
  print ("Created sample roster with " ++ show_nat 7 ++ " players at " ++ output_path).

(** [for filename, stats in stats_files:], with the number of records of
    each list. *)
Fixpoint save_stats_files (stats_files : list (string * nat)) : M unit :=
  match stats_files with
  | [] => ret tt
  | (filename, count) :: rest =>
      let output_path := fetcher_output_dir self ++ "/" ++ filename in
      write_json w output_path ;;
      print ("Saved " ++ show_nat count ++ " stat records to " ++ output_path) ;;
      save_stats_files rest
  end.

Definition create_sample_stats : M unit :=
  print "Creating sample statistics data..." ;;
  save_stats_files [("passing_stats_2024.json", 2);
                    ("rushing_stats_2024.json", 1);
                    ("receiving_stats_2024.json", 2)].

Definition create_projection_dataset : M unit :=
  print "Creating projection dataset..." ;;
  let output_path := fetcher_output_dir self ++ "/projection_dataset.json" in
  write_json w output_path ;;
  print ("Created projection dataset at " ++ output_path).

Definition run_simple_pipeline : M unit :=
  print "Starting simple NFL data pipeline..." ;;
  try_except
    (fetch_teams_data ;;
     create_sample_rosters ;;
     create_sample_stats ;;
     create_projection_dataset ;;
     print "Simple NFL data pipeline completed successfully!" ;;
     print ("All data saved to: " ++ fetcher_output_dir self) ;;
     print "Next steps:" ;;
     print "1. Run: npm run nfl-data:transform" ;;
     print "2. Your database will be updated with this data" ;;
     print "3. Check your app at http://localhost:3000")
    (fun e => print ("Pipeline failed: " ++ exn_msg e) ;; raise e).

End Simple.

(** ** Observations on a run *)

(** The HTTP POSTs of a trace: URL, body and outcome. *)
Fixpoint posts (tr : list event) : list (string * list record * res response) :=
  match tr with
  | [] => []
  | EPost u _ b o :: tr' => (u, b, o) :: posts tr'
  | _ :: tr' => posts tr'
  end.

(** The [nfl_data_py] functions called in a trace, in order. *)
Fixpoint calls (tr : list event) : list string :=
  match tr with
  | [] => []
  | ECall fn _ _ _ :: tr' => fn :: calls tr'
  | _ :: tr' => calls tr'
  end.

(** [m] returns normally from every state, appending events whose calls
    into [nfl_data_py] satisfy [P]. *)
Definition runs_with_calls {A} (m : M A) (P : list string -> Prop) : Prop :=
  forall s, let '(r, s') := m s in
  (exists v, r = Ok v) /\ exists evs, trace s' = (trace s ++ evs)%list /\ P (calls evs).

(** A batch write succeeded: a response came back with status 200 or 201. *)
Definition post_ok (p : string * list record * res response) : bool :=
  match p with
  | (_, _, Ok r) => status_ok r
  | (_, _, Exc _) => false
  end.

(** The batches [data[i:i + 100]] for [i in range(0, len(data), 100)]. *)
Definition batches (xs : list record) : list (list record) :=
  map (fun i => firstn (i + 100 - i) (skipn i xs)) (py_range 0 (length xs) 100).

(** Running [update_supabase_database] on a fresh heap holding [data]. *)
Definition upload (w : env) (self : NFLDataPipeline) (data_type : string)
    (data : list record) : res bool * state :=
  update_supabase_database w self data_type 0 (mkState [] [data]).

(** Test fixtures: [n] distinct records, and a server that answers with
    the given status to the k-th POST. *)
Definition rec_n (k : nat) : record := [("id", JInt (Z.of_nat k))].
Definition recs (n : nat) : list record := map rec_n (seq 0 n).

Fixpoint count_posts (tr : list event) : nat :=
  match tr with
  | [] => 0
  | EPost _ _ _ _ :: tr' => S (count_posts tr')
  | _ :: tr' => count_posts tr'
  end.

Definition status_env (f : nat -> Z) : env :=
  mkEnv (fun _ _ _ _ => Ok []) (fun _ _ => Ok tt)
        (fun h _ _ _ => Ok (mkResponse (f (count_posts h)) "")).

Definition creds : NFLDataPipeline :=
  mkPipeline "data/nfl" 2024 (Some "https://db.example") (Some "k3y").

(** The resource name as the spec describes it: the static mapping's
    entry, and the literal [data_type] otherwise. *)
Definition resource_name_spec (data_type : string) : string :=
  if String.eqb data_type "players" then "nfl_players"
  else if String.eqb data_type "stats" then "player_game_stats"
  else if String.eqb data_type "projections" then "player_projections"
  else data_type.

(** Credentials are present: both [os.getenv] values are truthy. *)
Definition creds_present (self : NFLDataPipeline) : bool :=
  py_truthy (supabase_url self) && py_truthy (supabase_key self).

(** The request URL [update_supabase_database] builds. *)
Definition upload_url (self : NFLDataPipeline) (data_type : string) : string :=
  py_str (supabase_url self) ++ "/rest/v1/" ++ dict_get table_mapping data_type data_type.

Definition post_url (p : string * list record * res response) : string := fst (fst p).
Definition post_body (p : string * list record * res response) : list record := snd (fst p).

Local Open Scope list_scope.

(** How a sequence of batch writes ended: every write succeeded and the
    result is [b = true], or the writes stop at the first failed one and
    the result is [false]. *)
Definition stops_at_first_failure (ps : list (string * list record * res response))
    (nb : nat) (b : bool) : Prop :=
  (b = true /\ length ps = nb /\ Forall (fun p => post_ok p = true) ps) \/
  (b = false /\ exists pre p, ps = pre ++ [p] /\
     Forall (fun q => post_ok q = true) pre /\ post_ok p = false).

(** The same world, except that a [requests.post] that raised answers
    instead with status [code] (and the exception's message as body). *)
Definition mask_post_exc (code : Z) (w : env) : env :=
  mkEnv (nfl_api w) (write_file w)
        (fun h u hd b => match http_post w h u hd b with
                         | Exc e => Ok (mkResponse code (exn_msg e))
                         | o => o
                         end).

(** A world whose second POST raises a connection error. *)
Definition flaky_env : env :=
  mkEnv (fun _ _ _ _ => Ok []) (fun _ _ => Ok tt)
        (fun h _ _ _ => if Nat.eqb (count_posts h) 1
                        then Exc (PyExc "Connection refused")
                        else Ok (mkResponse 201 "")).

(** The calls of [create_player_projections_dataset]: it stops calling
    at its first failure. *)
Definition projection_calls (c : list string) : Prop :=
  c = ["import_weekly_data"] \/
  c = ["import_weekly_data"; "import_seasonal_data"] \/
  c = ["import_weekly_data"; "import_seasonal_data"; "import_pbp_data"].

(** The paths of the file writes of a trace, in order. *)
Fixpoint write_paths (tr : list event) : list string :=
  match tr with
  | [] => []
  | EWrite p _ :: tr' => p :: write_paths tr'
  | _ :: tr' => write_paths tr'
  end.

(** The headers of the HTTP POSTs of a trace, in order. *)
Fixpoint post_headers (tr : list event) : list (list (string * string)) :=
  match tr with
  | [] => []
  | EPost _ hd _ _ :: tr' => hd :: post_headers tr'
  | _ :: tr' => post_headers tr'
  end.

(** The console output of a trace, in order. *)
Fixpoint prints (tr : list event) : list string :=
  match tr with
  | [] => []
  | EPrint msg :: tr' => msg :: prints tr'
  | _ :: tr' => prints tr'
  end.

(** What a fetch step does, seen from outside: from every state it
    returns normally after exactly one call [fn(years, columns)], posts
    nothing, writes only [output_path] and only after the call returned
    a frame, and either returns the frame the call returned after saving
    it, or, after a raised call or save, prints [err_msg] of the
    exception's message and returns the empty frame. *)
Definition fetch_contract (fn : string) (years : list Z) (columns : list string)
    (output_path : string) (err_msg : string -> string) (m : M frame) : Prop :=
  forall s, let '(r, s') := m s in
  exists evs, trace s' = trace s ++ evs /\ calls evs = [fn] /\ posts evs = [] /\
  (forall p o, In (EWrite p o) evs ->
     p = output_path /\ exists df, In (ECall fn years columns (Ok df)) evs) /\
  ((exists df, In (ECall fn years columns (Ok df)) evs /\
               In (EWrite output_path (Ok tt)) evs /\ r = Ok df) \/
   (exists e, (In (ECall fn years columns (Exc e)) evs \/
               In (EWrite output_path (Exc e)) evs) /\
              r = Ok [] /\ In (EPrint (err_msg (exn_msg e))) evs)).

(** A step recovers from upstream failures, with [empty] as its empty
    result and [err_msg] as its error line: from every state it returns
    normally, and when one of its upstream calls raised [e] in this run it
    returns [empty] after printing [err_msg] of [e]'s message. *)
Definition recovers {A} (m : M A) (empty : A) (err_msg : string -> string) : Prop :=
  forall s, let '(r, s') := m s in
  exists evs, trace s' = trace s ++ evs /\ (exists v, r = Ok v) /\
  (forall fn years columns e, In (ECall fn years columns (Exc e)) evs ->
     r = Ok empty /\ In (EPrint (err_msg (exn_msg e))) evs).

(** A world whose first upstream call of a run times out, and which
    answers every later call and write normally. *)
Definition timeout_once_env : env :=
  mkEnv (fun h _ _ _ => match calls h with
                        | [] => Exc (PyExc "Read timed out")
                        | _ => Ok []
                        end)
        (fun _ _ => Ok tt)
        (fun _ _ _ _ => Ok (mkResponse 201 "")).

(** Every event of [m]'s run satisfies [Q], whatever it returns. *)
Definition emits_only {A} (m : M A) (Q : event -> Prop) : Prop :=
  forall s, exists evs, trace (snd (m s)) = trace s ++ evs /\ Forall Q evs.

(** No POST, and every file written lies in the directory [dir]. *)
Definition local_event (dir : string) (ev : event) : Prop :=
  match ev with
  | EPost _ _ _ _ => False
  | EWrite p _ => exists name, p = (dir ++ "/" ++ name)%string
  | _ => True
  end.

(** The six files of [run_simple_pipeline], in the order written. *)
Definition simple_files (dir : string) : list string :=
  map (fun name => dir ++ "/" ++ name)%string
      ["teams.json"; "rosters_2024.json"; "passing_stats_2024.json";
       "rushing_stats_2024.json"; "receiving_stats_2024.json"; "projection_dataset.json"].

(** The process environment: [os.getenv] and [os.makedirs(path,
    exist_ok=True)], which may raise (the directory's creation is not an
    event of the trace). *)
Record os_env := mkOs {
  getenv : string -> option string;
  makedirs : list event -> string -> res unit
}.

Definition os_makedirs (os : os_env) (path : string) : M unit :=
  fun s => (makedirs os (trace s) path, s).

(** The module [nfl-data-pipeline.py]: [NFLDataPipeline.__init__] and [main]. *)
Module nfl_data_pipeline.
Section Main.
Variables (w : env) (os : os_env).

Definition NFLDataPipeline_init (output_dir : string) : M NFLDataPipeline :=
  let self := mkPipeline output_dir 2024 (getenv os "NEXT_PUBLIC_SUPABASE_URL")
                         (getenv os "NEXT_PUBLIC_SUPABASE_ANON_KEY") in
  os_makedirs os output_dir ;;
  print "NFL Data Pipeline initialized" ;;
  print ("Output directory: " ++ output_dir) ;;
  print ("Current season: " ++ show_Z (current_season self)) ;;
  ret self.

(** [sys.argv[1] if len(sys.argv) > 1 else 'full'] *)
Definition main_command (argv : list string) : string :=
  match argv with
  | _ :: command :: _ => command
  | _ => "full"
  end.

Definition usage : string :=
  "Usage: python nfl-data-pipeline.py [full|rosters|stats|schedule|injuries|projections]".

Definition main (argv : list string) : M unit :=
  let command := main_command argv in
  pipeline <- NFLDataPipeline_init "data/nfl" ;;
  if String.eqb command "full" then run_full_pipeline w pipeline
  else if String.eqb command "rosters" then fetch_roster_data w pipeline None ;; ret tt
  else if String.eqb command "stats" then fetch_player_stats w pipeline None "passing" ;; ret tt
  else if String.eqb command "schedule" then fetch_schedule_data w pipeline None ;; ret tt
  else if String.eqb command "injuries" then fetch_injury_reports w pipeline ;; ret tt
  else if String.eqb command "projections" then
    create_player_projections_dataset w pipeline None ;; ret tt
  else print usage.

End Main.
End nfl_data_pipeline.

(** The module [simple-nfl-data-fetch.py]: [SimpleNFLDataFetcher.__init__]
    and [main]. *)
Module simple_nfl_data_fetch.
Section Main.
Variables (w : env) (os : os_env).

Definition SimpleNFLDataFetcher_init (output_dir : string) : M SimpleNFLDataFetcher :=
  os_makedirs os output_dir ;;
  print "Simple NFL Data Fetcher initialized" ;;
  print ("Output directory: " ++ output_dir) ;;
  print ("Current season: " ++ show_Z 2024) ;;
  ret (mkFetcher output_dir 2024).

Definition main : M unit :=
  fetcher <- SimpleNFLDataFetcher_init "data/nfl" ;;
  run_simple_pipeline w fetcher.

End Main.
End simple_nfl_data_fetch.

(** ** Lemmas on the helpers *)

Lemma posts_app (t1 t2 : list event) : posts (t1 ++ t2) = posts t1 ++ posts t2.
Proof.
  induction t1 as [|ev t1 IH]; [reflexivity|].
  destruct ev; cbn; rewrite ?IH; reflexivity.
Qed.

Lemma range_go_shape (fuel a stop step : nat) :
  range_go fuel a stop step
  = map (fun k => a + k * step) (seq 0 (length (range_go fuel a stop step))).
Proof.
  revert a. induction fuel as [|f IH]; intro a; [reflexivity|].
  cbn [range_go]. destruct (Nat.ltb a stop); [|reflexivity].
  cbn [length seq map]. f_equal; [lia|].
  rewrite IH at 1. rewrite <- seq_shift, map_map.
  apply map_ext. intro k. cbn. lia.
Qed.

(** The batches read from [i] on cover the suffix [skipn i xs]. *)
Lemma concat_range_slices (xs : list record) (bs fuel i : nat) :
  0 < bs -> length xs - i <= fuel ->
  concat (map (fun j => firstn (j + bs - j) (skipn j xs))
              (range_go fuel i (length xs) bs)) = skipn i xs.
Proof.
  intros Hbs. revert i. induction fuel as [|f IH]; intros i Hf; cbn [range_go map concat].
  - symmetry. apply skipn_all2. lia.
  - destruct (Nat.ltb i (length xs)) eqn:Hlt.
    + apply Nat.ltb_lt in Hlt. cbn [map concat]. rewrite IH by lia.
      replace (i + bs - i) with bs by lia.
      rewrite Nat.add_comm, <- skipn_skipn. apply firstn_skipn.
    + apply Nat.ltb_ge in Hlt. symmetry. apply skipn_all2. lia.
Qed.

Lemma batches_concat (xs : list record) : concat (batches xs) = xs.
Proof.
  unfold batches, py_range. rewrite concat_range_slices by lia. reflexivity.
Qed.

Lemma nth_error_extend {A} (l ys : list A) (d : nat) (x : A) :
  nth_error l d = Some x -> nth_error (l ++ ys) d = Some x.
Proof.
  intro H. rewrite nth_error_app1; [exact H|].
  apply nth_error_Some. congruence.
Qed.

(** ** The batch loop *)

Section BatchLoop.
Variables (w : env) (url : string) (headers : list (string * string)) (data : loc)
          (xs : list record) (n bs : nat).

Definition slice_at (i : nat) : list record := firstn (i + bs - i) (skipn i xs).

Lemma batch_loop_spec (idxs : list nat) (s : state) :
  nth_error (heap s) data = Some xs ->
  let '(r, s') := batch_loop w url headers data n bs idxs s in
  (exists ys, heap s' = heap s ++ ys) /\
  exists ps, posts (trace s') = posts (trace s) ++ ps /\
    Forall (fun p => post_url p = url) ps /\
    Forall (fun p => exists h hd, snd p = http_post w h (post_url p) hd (post_body p)) ps /\
    map post_body ps = firstn (length ps) (map slice_at idxs) /\
    match r with
    | Ok b => stops_at_first_failure ps (length idxs) b /\
              Forall (fun p => exists resp, snd p = Ok resp) ps
    | Exc e => exists pre p, ps = pre ++ [p] /\
                 Forall (fun q => post_ok q = true) pre /\ snd p = Exc e
    end.
Proof.
  revert s. induction idxs as [|i rest IH]; intros s Hd; cbn [batch_loop].
  - split; [exists []; rewrite app_nil_r; reflexivity|].
    exists []. rewrite app_nil_r.
    split; [reflexivity|]. split; [constructor|]. split; [constructor|].
    split; [reflexivity|]. split; [left; repeat split; constructor|constructor].
  - unfold bind at 1, py_slice, read_list at 1. rewrite Hd. cbn [alloc].
    unfold bind at 1, requests_post, read_list. cbn [heap trace].
    rewrite nth_error_app2, Nat.sub_diag by lia. cbn [nth_error].
    destruct (http_post w _ url headers _) as [resp|e] eqn:Ho.
    + unfold emit. cbn [trace heap].
      destruct (status_ok resp) eqn:Hst; cbn [negb].
      * unfold bind at 1, print, emit. cbn [trace heap].
        set (s2 := mkState _ _).
        assert (Hd2 : nth_error (heap s2) data = Some xs).
        { cbn. apply nth_error_extend. exact Hd. }
        specialize (IH s2 Hd2).
        destruct (batch_loop w url headers data n bs rest s2) as [r s'] eqn:Hrun.
        destruct IH as [[ys Hys] [ps [Hps [Hurl [Horig [Hbody Hr]]]]]].
        split.
        { exists (slice_at i :: ys). rewrite Hys. cbn. rewrite <- app_assoc. reflexivity. }
        exists ((url, slice_at i, Ok resp) :: ps).
        rewrite Hps. cbn [s2 trace]. rewrite !posts_app. cbn [posts].
        split; [rewrite <- !app_assoc; reflexivity|].
        split; [constructor; [reflexivity|exact Hurl]|].
        split; [constructor; [|exact Horig]|].
        { exists (trace s), headers. unfold post_url, post_body, slice_at.
          cbn [fst snd]. rewrite Ho. reflexivity. }
        split; [cbn; f_equal; exact Hbody|].
        destruct r as [b|e].
        -- destruct Hr as [Hr Hans].
           split; [|constructor; [exists resp; reflexivity|exact Hans]].
           destruct Hr as [[-> [Hl Hok]]|[-> [pre [p [-> [Hpre Hp]]]]]].
           ++ left. repeat split; [cbn; lia|]. constructor; [exact Hst|exact Hok].
           ++ right. split; [reflexivity|].
              exists ((url, slice_at i, Ok resp) :: pre), p.
              repeat split; [constructor; [exact Hst|exact Hpre]|exact Hp].
        -- destruct Hr as [pre [p [-> [Hpre Hp]]]].
           exists ((url, slice_at i, Ok resp) :: pre), p.
           repeat split; [constructor; [exact Hst|exact Hpre]|exact Hp].
      * unfold bind, print, ret, emit. cbn [trace heap].
        split; [exists [slice_at i]; reflexivity|].
        exists [(url, slice_at i, Ok resp)].
        rewrite !posts_app. cbn [posts].
        split; [rewrite <- app_assoc; reflexivity|].
        split; [constructor; [reflexivity|constructor]|].
        split.
        { constructor; [|constructor]. exists (trace s), headers.
          unfold post_url, post_body, slice_at. cbn [fst snd]. rewrite Ho. reflexivity. }
        split; [reflexivity|].
        split; [|constructor; [exists resp; reflexivity|constructor]].
        right. split; [reflexivity|]. exists [], (url, slice_at i, Ok resp).
        repeat split; [constructor|exact Hst].
    + unfold emit. cbn [trace heap].
      split; [exists [slice_at i]; reflexivity|].
      exists [(url, slice_at i, Exc e)].
      rewrite !posts_app. cbn [posts].
      repeat split; [constructor; [reflexivity|constructor]| |].
      { constructor; [|constructor]. exists (trace s), headers.
        unfold post_url, post_body, slice_at. cbn [fst snd]. rewrite Ho. reflexivity. }
      exists [], (url, slice_at i, Exc e). repeat split. constructor.
Qed.

End BatchLoop.

(** ** [update_supabase_database] *)

Lemma batches_slices (xs : list record) :
  batches xs = map (slice_at xs 100) (py_range 0 (length xs) 100).
Proof. reflexivity. Qed.

Lemma creds_if (self : NFLDataPipeline) :
  creds_present self = true ->
  negb (py_truthy (supabase_url self)) || negb (py_truthy (supabase_key self)) = false.
Proof.
  unfold creds_present. intro H. apply andb_true_iff in H as [-> ->]. reflexivity.
Qed.

Lemma no_creds_if (self : NFLDataPipeline) :
  creds_present self = false ->
  negb (py_truthy (supabase_url self)) || negb (py_truthy (supabase_key self)) = true.
Proof.
  unfold creds_present. destruct (py_truthy (supabase_url self)), (py_truthy (supabase_key self));
    cbn; congruence.
Qed.

Section Update.
Variables (w : env) (self : NFLDataPipeline) (data_type : string) (data : loc)
          (xs : list record).

(** With credentials present, every run posts a prefix of the batches to
    the resource URL, stops at the first failed write, and returns a
    boolean (no exception escapes). *)
Lemma update_spec (s : state) :
  creds_present self = true ->
  nth_error (heap s) data = Some xs ->
  let '(r, s') := update_supabase_database w self data_type data s in
  (exists ys, heap s' = heap s ++ ys) /\
  exists ps b, r = Ok b /\ posts (trace s') = posts (trace s) ++ ps /\
    Forall (fun p => post_url p = upload_url self data_type) ps /\
    Forall (fun p => exists h hd, snd p = http_post w h (post_url p) hd (post_body p)) ps /\
    map post_body ps = firstn (length ps) (batches xs) /\
    stops_at_first_failure ps (length (batches xs)) b /\
    (forall p e, In p ps -> snd p = Exc e ->
       In (EPrint ("Error updating Supabase: " ++ exn_msg e)%string) (trace s')).
Proof.
  intros Hc Hd. unfold update_supabase_database. rewrite (creds_if _ Hc).
  unfold bind at 1, py_len at 1, read_list at 1. rewrite Hd.
  unfold bind at 1, print at 1, emit at 1.
  unfold try_except at 1.
  set (s1 := mkState _ _).
  assert (Hd1 : nth_error (heap s1) data = Some xs) by exact Hd.
  unfold bind at 1, py_len at 1, read_list at 1. rewrite Hd1.
  unfold bind at 1.
  match goal with
  | |- context [batch_loop w ?u ?h data ?n ?b ?i s1] =>
      pose proof (batch_loop_spec w u h data xs n b i s1 Hd1) as Hl
  end.
  fold (upload_url self data_type) in Hl |- *.
  destruct (batch_loop _ _ _ _ _ _ _ s1) as [r s'] eqn:Hrun.
  destruct Hl as [[ys Hys] [ps [Hps [Hurl [Horig [Hbody Hr]]]]]].
  rewrite <- batches_slices in Hbody.
  replace (length (py_range 0 (length xs) 100)) with (length (batches xs)) in Hr
    by (rewrite batches_slices, length_map; reflexivity).
  destruct r as [[|]|e]; cbn [trace heap].
  - destruct Hr as [Hr Hans].
    unfold print, bind, ret, emit. cbn [trace heap].
    split; [exists ys; exact Hys|].
    exists ps, true. rewrite posts_app, Hps. cbn [s1 trace]. rewrite posts_app.
    cbn [posts]. rewrite !app_nil_r. split; [reflexivity|]. split; [reflexivity|].
    repeat (split; [assumption|]).
    intros p e Hin He. rewrite Forall_forall in Hans.
    destruct (Hans p Hin) as [resp Hresp]. congruence.
  - destruct Hr as [Hr Hans].
    unfold ret. split; [exists ys; exact Hys|].
    exists ps, false. rewrite Hps. cbn [s1 trace]. rewrite posts_app.
    cbn [posts]. rewrite !app_nil_r. split; [reflexivity|]. split; [reflexivity|].
    repeat (split; [assumption|]).
    intros p e Hin He. rewrite Forall_forall in Hans.
    destruct (Hans p Hin) as [resp Hresp]. congruence.
  - unfold print, bind, ret, emit. cbn [trace heap].
    split; [exists ys; exact Hys|].
    exists ps, false. rewrite posts_app, Hps. cbn [s1 trace]. rewrite posts_app.
    cbn [posts]. rewrite !app_nil_r.
    destruct Hr as [pre [p0 [-> [Hpre Hp0]]]].
    split; [reflexivity|]. split; [reflexivity|].
    split; [assumption|]. split; [assumption|]. split; [assumption|].
    split.
    { right. split; [reflexivity|]. exists pre, p0. repeat split; [exact Hpre|].
      destruct p0 as [[u b] o]. cbn in Hp0. subst o. reflexivity. }
    intros p e' Hin He'. apply in_app_or in Hin as [Hin|[<-|[]]].
    + rewrite Forall_forall in Hpre. specialize (Hpre p Hin).
      destruct p as [[u b] o]. cbn in He'. subst o. discriminate.
    + rewrite Hp0 in He'. injection He' as ->.
      apply in_or_app. right. left. reflexivity.
Qed.

End Update.

Lemma batch_loop_mask (w : env) (code : Z) url headers data n bs idxs (s : state) :
  existsb (Z.eqb code) [200%Z; 201%Z] = false ->
  batch_loop w url headers data n bs idxs s
  = batch_loop (mask_post_exc code w) url headers data n bs idxs s \/
  exists e,
    fst (batch_loop w url headers data n bs idxs s) = Exc e /\
    fst (batch_loop (mask_post_exc code w) url headers data n bs idxs s) = Ok false /\
    map post_body (posts (trace (snd (batch_loop w url headers data n bs idxs s))))
    = map post_body (posts (trace (snd (batch_loop (mask_post_exc code w) url headers
                                           data n bs idxs s)))).
Proof.
  intro Hcode. revert s. induction idxs as [|i rest IH]; intro s; [left; reflexivity|].
  cbn [batch_loop]. unfold bind, py_slice, requests_post.
  destruct (read_list data s) as [ys|e0]; [|left; reflexivity].
  cbn [alloc].
  destruct (read_list _ _) as [body|e0]; [|left; reflexivity].
  cbn [http_post mask_post_exc trace].
  destruct (http_post w (trace s) url headers body) as [resp|e] eqn:Ho.
  - destruct (negb (status_ok resp)); [left; reflexivity|].
    unfold print. cbn [trace].
    match goal with
    | |- context [batch_loop w url headers data n bs rest ?s2] =>
        destruct (IH s2) as [Heq|[e [H1 [H2 H3]]]]
    end.
    + left. rewrite Heq. reflexivity.
    + right. exists e.
      destruct (batch_loop w _ _ _ _ _ rest _) as [r1 s1].
      destruct (batch_loop (mask_post_exc code w) _ _ _ _ _ rest _) as [r2 s2].
      cbn in H1, H2 |- *. subst r1 r2. auto.
  - right. exists e. split; [reflexivity|].
    unfold status_ok. cbn [status_code]. rewrite Hcode. cbn [negb].
    unfold print, ret, emit. cbn [fst snd trace].
    split; [reflexivity|].
    rewrite !posts_app. cbn [posts]. rewrite !app_nil_r, !map_app. reflexivity.
Qed.

Lemma update_mask (w : env) (code : Z) self data_type data (s : state) :
  existsb (Z.eqb code) [200%Z; 201%Z] = false ->
  fst (update_supabase_database (mask_post_exc code w) self data_type data s)
  = fst (update_supabase_database w self data_type data s) /\
  map post_body (posts (trace (snd
    (update_supabase_database (mask_post_exc code w) self data_type data s))))
  = map post_body (posts (trace (snd (update_supabase_database w self data_type data s)))).
Proof.
  intro Hcode. unfold update_supabase_database.
  destruct (_ || _); [split; reflexivity|].
  unfold bind, py_len, print, try_except, ret, emit.
  destruct (read_list data s) as [ys|e0]; [|split; reflexivity].
  cbv beta iota zeta. cbn [trace heap].
  destruct (read_list data _) as [ys'|e0]; [|split; reflexivity].
  cbv beta iota zeta.
  match goal with
  | |- context [batch_loop w ?u ?h ?d ?n ?b ?i ?s2] =>
      destruct (batch_loop_mask w code u h d n b i s2 Hcode) as [Heq|[e [H1 [H2 H3]]]];
      [rewrite <- Heq; split; reflexivity|];
      destruct (batch_loop w u h d n b i s2) as [r1 t1];
      destruct (batch_loop (mask_post_exc code w) u h d n b i s2) as [r2 t2]
  end.
  cbn [fst snd] in H1, H2, H3. subst r1 r2.
  cbv beta iota zeta. cbn [fst snd trace].
  split; [reflexivity|]. rewrite posts_app. cbn [posts]. rewrite app_nil_r.
  symmetry. exact H3.
Qed.

(** Every run only reads the lists it was given: the heap only grows by
    the fresh slices. *)
Lemma update_heap_frame (w : env) self data_type data (s : state) :
  exists ys, heap (snd (update_supabase_database w self data_type data s)) = heap s ++ ys.
Proof.
  destruct (creds_present self) eqn:Hc.
  - destruct (nth_error (heap s) data) as [xs|] eqn:Hd.
    + pose proof (update_spec w self data_type data xs s Hc Hd) as H.
      destruct (update_supabase_database w self data_type data s) as [r s'].
      destruct H as [Hh _]. exact Hh.
    + exists []. rewrite app_nil_r. unfold update_supabase_database.
      rewrite (creds_if _ Hc). unfold bind, py_len, read_list. rewrite Hd. reflexivity.
  - exists []. rewrite app_nil_r. unfold update_supabase_database.
    rewrite (no_creds_if _ Hc). reflexivity.
Qed.

(** [upload] specialised from [update_spec]: the caller's list is the
    only object of the heap. *)
Lemma upload_spec (w : env) self data_type (xs : list record) :
  creds_present self = true ->
  let '(r, s') := upload w self data_type xs in
  nth_error (heap s') 0 = Some xs /\
  exists b, r = Ok b /\
    Forall (fun p => post_url p = upload_url self data_type) (posts (trace s')) /\
    Forall (fun p => exists h hd, snd p = http_post w h (post_url p) hd (post_body p))
           (posts (trace s')) /\
    map post_body (posts (trace s'))
      = firstn (length (posts (trace s'))) (batches xs) /\
    stops_at_first_failure (posts (trace s')) (length (batches xs)) b /\
    (forall p e, In p (posts (trace s')) -> snd p = Exc e ->
       In (EPrint ("Error updating Supabase: " ++ exn_msg e)%string) (trace s')).
Proof.
  intro Hc. unfold upload.
  pose proof (update_spec w self data_type 0 xs (mkState [] [xs]) Hc eq_refl) as H.
  destruct (update_supabase_database w self data_type 0 _) as [r s'].
  destruct H as [[ys Hys] [ps [b [Hr [Hps H]]]]].
  cbn [trace posts app] in Hps. rewrite Hps.
  split; [rewrite Hys; reflexivity|]. exists b. split; [exact Hr|]. exact H.
Qed.

Lemma batches_length_le (xs : list record) :
  Forall (fun b => length b <= 100) (batches xs).
Proof.
  unfold batches. apply Forall_map, Forall_forall. intros i _.
  rewrite length_firstn. lia.
Qed.

Lemma batches_shape (xs : list record) :
  batches xs = map (fun k => firstn 100 (skipn (100 * k) xs)) (seq 0 (length (batches xs))).
Proof.
  unfold batches at 1, py_range. rewrite range_go_shape. rewrite map_map.
  replace (length (range_go _ 0 (length xs) 100)) with (length (batches xs))
    by (unfold batches, py_range; rewrite length_map; reflexivity).
  apply map_ext. intro k. f_equal; [lia|f_equal; lia].
Qed.

Lemma all_sent (ps : list (string * list record * res response)) (bs : list (list record)) :
  map post_body ps = firstn (length ps) bs -> length ps = length bs ->
  map post_body ps = bs.
Proof. intros H1 H2. rewrite H1, H2. apply firstn_all. Qed.

(** ** Claims about the uploader *)

(** C1: the uploader cuts the records into consecutive slices
    [data[100k : 100k + 100]] of at most 100 records; their concatenation
    is the input, and the bodies the uploader sends, in the order sent,
    are the first of these batches. *)
Theorem upload_batches_partition_input (w : env) (self : NFLDataPipeline)
    (data_type : string) (xs : list record) :
  creds_present self = true ->
  concat (batches xs) = xs /\
  Forall (fun b => length b <= 100) (batches xs) /\
  batches xs = map (fun k => firstn 100 (skipn (100 * k) xs)) (seq 0 (length (batches xs))) /\
  exists k, map post_body (posts (trace (snd (upload w self data_type xs))))
            = firstn k (batches xs).
Proof.
  intro Hc. split; [apply batches_concat|].
  split; [apply batches_length_le|]. split; [apply batches_shape|].
  pose proof (upload_spec w self data_type xs Hc) as H.
  destruct (upload w self data_type xs) as [r s'].
  destruct H as [_ [b [_ [_ [_ [Hbody _]]]]]].
  eexists. exact Hbody.
Qed.

Lemma upload_batches_partition_input_witness :
  creds_present creds = true /\
  concat (batches (recs 250)) = recs 250 /\
  Forall (fun b => length b <= 100) (batches (recs 250)) /\
  batches (recs 250)
    = map (fun k => firstn 100 (skipn (100 * k) (recs 250))) (seq 0 (length (batches (recs 250)))) /\
  exists k, map post_body (posts (trace (snd
              (upload (status_env (fun _ => 201%Z)) creds "players" (recs 250)))))
            = firstn k (batches (recs 250)).
Proof.
  split; [reflexivity|].
  apply (upload_batches_partition_input (status_env (fun _ => 201%Z)) creds "players" (recs 250)).
  reflexivity.
Defined.

(** C2: with credentials present, a batch write succeeds iff its response
    has status 200 or 201 ([post_ok]); the uploader stops after the first
    write that does not succeed and returns [false]; when every write
    succeeds, all batches have been sent and it returns [true]. *)
Theorem upload_status_semantics (w : env) (self : NFLDataPipeline)
    (data_type : string) (xs : list record) :
  creds_present self = true ->
  let '(r, s') := upload w self data_type xs in
  let ps := posts (trace s') in
  exists b, r = Ok b /\
    map post_body ps = firstn (length ps) (batches xs) /\
    ((b = true /\ map post_body ps = batches xs /\ Forall (fun p => post_ok p = true) ps) \/
     (b = false /\ exists pre p, ps = pre ++ [p] /\
        Forall (fun q => post_ok q = true) pre /\ post_ok p = false)).
Proof.
  intro Hc. pose proof (upload_spec w self data_type xs Hc) as H.
  destruct (upload w self data_type xs) as [r s'].
  destruct H as [_ [b [Hr [_ [_ [Hbody [Hstop _]]]]]]].
  exists b. split; [exact Hr|]. split; [exact Hbody|].
  destruct Hstop as [[-> [Hl Hok]]|Hf]; [left|right; exact Hf].
  split; [reflexivity|]. split; [apply all_sent; assumption|exact Hok].
Qed.

Lemma upload_status_semantics_witness :
  creds_present creds = true /\
  let '(r, s') := upload (status_env (fun k => if Nat.eqb k 1 then 500%Z else 201%Z))
                         creds "players" (recs 250) in
  let ps := posts (trace s') in
  exists b, r = Ok b /\
    map post_body ps = firstn (length ps) (batches (recs 250)) /\
    ((b = true /\ map post_body ps = batches (recs 250) /\
      Forall (fun p => post_ok p = true) ps) \/
     (b = false /\ exists pre p, ps = pre ++ [p] /\
        Forall (fun q => post_ok q = true) pre /\ post_ok p = false)).
Proof.
  split; [reflexivity|].
  apply (upload_status_semantics
           (status_env (fun k => if Nat.eqb k 1 then 500%Z else 201%Z))
           creds "players" (recs 250)).
  reflexivity.
Defined.

(** The spec's example: three batches, the second answered with 500; the
    third batch is never sent and the result is failure. *)
Example upload_second_of_three_fails :
  let '(r, s') := upload (status_env (fun k => if Nat.eqb k 1 then 500%Z else 201%Z))
                         creds "players" (recs 250) in
  r = Ok false /\ map (fun p => length (post_body p)) (posts (trace s')) = [100; 100].
Proof. vm_compute. split; reflexivity. Qed.

(** C3: when the endpoint URL or the key is absent ([None]; an empty
    string is just as falsy for the [not] test), the uploader only prints
    a notice: no POST, the heap untouched, result [false]. This holds for
    every record list, including the empty one. *)
Theorem upload_without_credentials (w : env) (self : NFLDataPipeline)
    (data_type : string) (data : loc) (s : state) :
  py_truthy (supabase_url self) = false \/ py_truthy (supabase_key self) = false ->
  let '(r, s') := update_supabase_database w self data_type data s in
  r = Ok false /\
  trace s' = trace s ++ [EPrint "Supabase credentials not found, skipping database update"] /\
  posts (trace s') = posts (trace s) /\
  heap s' = heap s.
Proof.
  intro Habs.
  assert (Hc : creds_present self = false).
  { unfold creds_present. destruct Habs as [-> | ->]; [reflexivity|apply andb_false_r]. }
  unfold update_supabase_database. rewrite (no_creds_if _ Hc).
  cbn. rewrite posts_app. cbn [posts]. rewrite app_nil_r. repeat split.
Qed.

Lemma upload_without_credentials_witness :
  (py_truthy None = false \/ py_truthy (Some "k3y") = false) /\
  let '(r, s') := update_supabase_database (status_env (fun _ => 201%Z))
                    (mkPipeline "data/nfl" 2024 None (Some "k3y")) "players" 0
                    (mkState [] [recs 3]) in
  r = Ok false /\
  trace s' = [] ++ [EPrint "Supabase credentials not found, skipping database update"] /\
  posts (trace s') = posts [] /\
  heap s' = [recs 3].
Proof.
  split; [left; reflexivity|].
  apply (upload_without_credentials (status_env (fun _ => 201%Z))
           (mkPipeline "data/nfl" 2024 None (Some "k3y")) "players" 0
           (mkState [] [recs 3])).
  left. reflexivity.
Defined.

(** C4: the resource name in [{base_url}/rest/v1/{resource_name}] is the
    mapping's entry for [players], [stats] and [projections] and the
    literal [data_type] for any other value; every POST goes to that URL. *)
Theorem upload_resource_name (w : env) (self : NFLDataPipeline)
    (data_type : string) (xs : list record) :
  creds_present self = true ->
  dict_get table_mapping data_type data_type = resource_name_spec data_type /\
  Forall (fun p => post_url p
                   = (py_str (supabase_url self) ++ "/rest/v1/" ++ resource_name_spec data_type)%string)
         (posts (trace (snd (upload w self data_type xs)))).
Proof.
  intro Hc.
  assert (Hmap : dict_get table_mapping data_type data_type = resource_name_spec data_type).
  { unfold table_mapping, resource_name_spec. cbn [dict_get].
    rewrite !(String.eqb_sym _ data_type). reflexivity. }
  split; [exact Hmap|].
  pose proof (upload_spec w self data_type xs Hc) as H.
  destruct (upload w self data_type xs) as [r s'].
  destruct H as [_ [b [_ [Hurl _]]]].
  unfold upload_url in Hurl. rewrite Hmap in Hurl. exact Hurl.
Qed.

Lemma upload_resource_name_witness :
  creds_present creds = true /\
  dict_get table_mapping "scores" "scores" = resource_name_spec "scores" /\
  Forall (fun p => post_url p = "https://db.example/rest/v1/scores")
         (posts (trace (snd (upload (status_env (fun _ => 200%Z)) creds "scores" (recs 120))))).
Proof.
  split; [reflexivity|].
  apply (upload_resource_name (status_env (fun _ => 200%Z)) creds "scores" (recs 120)).
  reflexivity.
Defined.

(** C5: a POST that raises ends the upload just like a non-2xx answer: it
    is the last POST, the exception is printed and not propagated, and the
    result is [false]. Answering that POST with any non-2xx status instead
    gives the same result and the same batches sent. *)
Theorem upload_transport_exception (w : env) (self : NFLDataPipeline)
    (data_type : string) (xs : list record) (code : Z) :
  creds_present self = true ->
  existsb (Z.eqb code) [200%Z; 201%Z] = false ->
  let '(r, s') := upload w self data_type xs in
  (exists b, r = Ok b) /\
  (forall p e, In p (posts (trace s')) -> snd p = Exc e ->
     r = Ok false /\ (exists pre, posts (trace s') = pre ++ [p]) /\
     In (EPrint ("Error updating Supabase: " ++ exn_msg e)%string) (trace s')) /\
  fst (upload (mask_post_exc code w) self data_type xs) = r /\
  map post_body (posts (trace (snd (upload (mask_post_exc code w) self data_type xs))))
  = map post_body (posts (trace s')).
Proof.
  intros Hc Hcode.
  pose proof (update_mask w code self data_type 0 (mkState [] [xs]) Hcode) as Hm.
  fold (upload (mask_post_exc code w) self data_type xs) in Hm.
  fold (upload w self data_type xs) in Hm.
  pose proof (upload_spec w self data_type xs Hc) as H.
  destruct (upload w self data_type xs) as [r s'].
  destruct H as [_ [b [Hr [_ [_ [_ [Hstop Hlog]]]]]]].
  split; [exists b; exact Hr|].
  split; [|exact Hm].
  intros p e Hin He.
  assert (Hp : post_ok p = false).
  { destruct p as [[u bd] o]. cbn in He. subst o. reflexivity. }
  destruct Hstop as [[-> [_ Hok]]|[-> [pre [p0 [Hps [Hpre Hp0]]]]]].
  - rewrite Forall_forall in Hok. rewrite (Hok p Hin) in Hp. discriminate.
  - split; [exact Hr|]. split; [|exact (Hlog p e Hin He)].
    exists pre. rewrite Hps in Hin |- *.
    apply in_app_or in Hin as [Hin|[<-|[]]]; [|reflexivity].
    rewrite Forall_forall in Hpre. rewrite (Hpre p Hin) in Hp. discriminate.
Qed.

Lemma upload_transport_exception_witness :
  creds_present creds = true /\ existsb (Z.eqb 503) [200%Z; 201%Z] = false /\
  let '(r, s') := upload flaky_env creds "stats" (recs 250) in
  (exists b, r = Ok b) /\
  (forall p e, In p (posts (trace s')) -> snd p = Exc e ->
     r = Ok false /\ (exists pre, posts (trace s') = pre ++ [p]) /\
     In (EPrint ("Error updating Supabase: " ++ exn_msg e)%string) (trace s')) /\
  fst (upload (mask_post_exc 503 flaky_env) creds "stats" (recs 250)) = r /\
  map post_body (posts (trace (snd (upload (mask_post_exc 503 flaky_env) creds "stats" (recs 250)))))
  = map post_body (posts (trace s')).
Proof.
  split; [reflexivity|]. split; [reflexivity|].
  apply (upload_transport_exception flaky_env creds "stats" (recs 250) 503); reflexivity.
Defined.

(** C6: with credentials present and no records, the uploader sends
    nothing and returns [true]. *)
Theorem upload_empty_records (w : env) (self : NFLDataPipeline) (data_type : string) :
  creds_present self = true ->
  let '(r, s') := upload w self data_type [] in
  r = Ok true /\ posts (trace s') = [].
Proof.
  intro Hc. pose proof (upload_spec w self data_type [] Hc) as H.
  destruct (upload w self data_type []) as [r s'].
  destruct H as [_ [b [Hr [_ [_ [Hbody [Hstop _]]]]]]].
  change (batches []) with (@nil (list record)) in Hbody, Hstop.
  rewrite firstn_nil in Hbody. apply map_eq_nil in Hbody.
  destruct Hstop as [[-> _]|[-> [pre [p [Hps _]]]]].
  - split; assumption.
  - rewrite Hbody in Hps. destruct pre; discriminate.
Qed.

Lemma upload_empty_records_witness :
  creds_present creds = true /\
  let '(r, s') := upload (status_env (fun _ => 500%Z)) creds "projections" [] in
  r = Ok true /\ posts (trace s') = [].
Proof.
  split; [reflexivity|].
  apply (upload_empty_records (status_env (fun _ => 500%Z)) creds "projections").
  reflexivity.
Defined.

Lemma batches_250 (xs : list record) :
  length xs = 250 -> map (@length record) (batches xs) = [100; 100; 50].
Proof.
  intro H. unfold batches. rewrite H.
  change (py_range 0 250 100) with [0; 100; 200].
  cbn [map]. rewrite !length_firstn, !length_skipn, H. reflexivity.
Qed.

(** C7: 250 records, credentials present and every answer 200 or 201:
    exactly three POSTs, of 100, 100 and 50 records, and result [true]. *)
Theorem upload_250_records (w : env) (self : NFLDataPipeline) (data_type : string)
    (xs : list record) :
  creds_present self = true ->
  length xs = 250 ->
  (forall h u hd b, exists resp, http_post w h u hd b = Ok resp /\ status_ok resp = true) ->
  let '(r, s') := upload w self data_type xs in
  r = Ok true /\ map (fun p => length (post_body p)) (posts (trace s')) = [100; 100; 50].
Proof.
  intros Hc Hlen Hall. pose proof (upload_spec w self data_type xs Hc) as H.
  destruct (upload w self data_type xs) as [r s'].
  destruct H as [_ [b [Hr [_ [Horig [Hbody [Hstop _]]]]]]].
  assert (Hok : forall p, In p (posts (trace s')) -> post_ok p = true).
  { intros p Hin. rewrite Forall_forall in Horig.
    destruct (Horig p Hin) as [h [hd Hp]].
    destruct (Hall h (post_url p) hd (post_body p)) as [resp [Hresp Hst]].
    rewrite Hresp in Hp. destruct p as [[u bd] o]. cbn [snd] in Hp. subst o. exact Hst. }
  destruct Hstop as [[-> [Hl _]]|[_ [pre [p [Hps [_ Hp]]]]]].
  - split; [exact Hr|].
    rewrite <- map_map, (all_sent _ _ Hbody Hl). apply batches_250. exact Hlen.
  - rewrite Hok in Hp; [discriminate|]. rewrite Hps. apply in_or_app. right. left. reflexivity.
Qed.

Lemma upload_250_records_witness :
  creds_present creds = true /\ length (recs 250) = 250 /\
  (forall h u hd b, exists resp,
     http_post (status_env (fun _ => 200%Z)) h u hd b = Ok resp /\ status_ok resp = true) /\
  let '(r, s') := upload (status_env (fun _ => 200%Z)) creds "players" (recs 250) in
  r = Ok true /\ map (fun p => length (post_body p)) (posts (trace s')) = [100; 100; 50].
Proof.
  assert (Hall : forall h u hd b, exists resp,
     http_post (status_env (fun _ => 200%Z)) h u hd b = Ok resp /\ status_ok resp = true).
  { intros h u hd b. eexists. split; reflexivity. }
  split; [reflexivity|]. split; [reflexivity|]. split; [exact Hall|].
  apply (upload_250_records (status_env (fun _ => 200%Z)) creds "players" (recs 250));
    [reflexivity|reflexivity|exact Hall].
Defined.

(** C10: the uploader never changes the caller's list, whatever it
    returns: the object [data] refers to holds the same records after the
    call, and the heap only grows by the fresh slices. *)
Theorem upload_preserves_input (w : env) (self : NFLDataPipeline) (data_type : string)
    (data : loc) (xs : list record) (s : state) :
  nth_error (heap s) data = Some xs ->
  let '(_, s') := update_supabase_database w self data_type data s in
  nth_error (heap s') data = Some xs /\ exists ys, heap s' = heap s ++ ys.
Proof.
  intro Hd. pose proof (update_heap_frame w self data_type data s) as [ys Hys].
  destruct (update_supabase_database w self data_type data s) as [r s'].
  cbn [snd] in Hys. rewrite Hys. split; [apply nth_error_extend; exact Hd|].
  exists ys. reflexivity.
Qed.

Lemma upload_preserves_input_witness :
  nth_error (heap (mkState [] [recs 3; recs 250])) 1 = Some (recs 250) /\
  let '(_, s') := update_supabase_database flaky_env creds "players" 1
                    (mkState [] [recs 3; recs 250]) in
  nth_error (heap s') 1 = Some (recs 250) /\
  exists ys, heap s' = heap (mkState [] [recs 3; recs 250]) ++ ys.
Proof.
  split; [reflexivity|].
  apply (upload_preserves_input flaky_env creds "players" 1 (recs 250)
           (mkState [] [recs 3; recs 250])).
  reflexivity.
Defined.

(** ** The fetch steps and the full pipeline *)

Lemma calls_app (t1 t2 : list event) : calls (t1 ++ t2) = calls t1 ++ calls t2.
Proof.
  induction t1 as [|ev t1 IH]; [reflexivity|].
  destruct ev; cbn; rewrite ?IH; reflexivity.
Qed.

Lemma runs_with_calls_weaken {A} (m : M A) (P Q : list string -> Prop) :
  runs_with_calls m P -> (forall c, P c -> Q c) -> runs_with_calls m Q.
Proof.
  intros Hm HPQ s. specialize (Hm s). destruct (m s) as [r s'].
  destruct Hm as [Hr [evs [Ht HP]]]. split; [exact Hr|]. exists evs. auto.
Qed.

Lemma print_calls (msg : string) : runs_with_calls (print msg) (eq []).
Proof.
  intro s. split; [eexists; reflexivity|]. exists [EPrint msg]. split; reflexivity.
Qed.

(** Run a step symbolically: every answer of the world is a case. *)
Ltac run_step :=
  intro s; unfold bind, print, try_except, nfl_call, write_json, ret, emit;
  cbv beta iota zeta; cbn [trace heap];
  repeat (match goal with
          | |- context [nfl_api ?w ?h ?f ?y ?c] => destruct (nfl_api w h f y c)
          | |- context [write_file ?w ?h ?p] => destruct (write_file w h p)
          | |- context [stat_columns ?t] => destruct (stat_columns t)
          end; cbv beta iota zeta; cbn [trace heap]);
  (split; [eexists; reflexivity|]);
  eexists; (split; [rewrite <- !app_assoc; reflexivity|]).

Section Steps.
Variables (w : env) (self : NFLDataPipeline).

Lemma fetch_roster_data_calls years :
  runs_with_calls (fetch_roster_data w self years) (eq ["import_rosters"]).
Proof. unfold fetch_roster_data. run_step; reflexivity. Qed.

Lemma fetch_player_stats_calls years stat_type :
  runs_with_calls (fetch_player_stats w self years stat_type) (eq ["import_weekly_data"]).
Proof. unfold fetch_player_stats. run_step; reflexivity. Qed.

Lemma fetch_schedule_data_calls years :
  runs_with_calls (fetch_schedule_data w self years) (eq ["import_schedules"]).
Proof. unfold fetch_schedule_data. run_step; reflexivity. Qed.

Lemma fetch_injury_reports_calls :
  runs_with_calls (fetch_injury_reports w self) (eq ["import_injuries"]).
Proof. unfold fetch_injury_reports. run_step; reflexivity. Qed.

Lemma fetch_team_data_calls years :
  runs_with_calls (fetch_team_data w self years) (eq ["import_team_desc"]).
Proof. unfold fetch_team_data. run_step; reflexivity. Qed.

Lemma create_player_projections_dataset_calls years :
  runs_with_calls (create_player_projections_dataset w self years) projection_calls.
Proof.
  unfold create_player_projections_dataset, projection_calls.
  run_step; cbn; auto.
Qed.

End Steps.

Lemma runs_with_calls_seq {A B} (m : M A) (k : A -> M B) (P1 P2 : list string -> Prop) :
  runs_with_calls m P1 -> (forall v, runs_with_calls (k v) P2) ->
  runs_with_calls (bind m k) (fun c => exists c1 c2, c = c1 ++ c2 /\ P1 c1 /\ P2 c2).
Proof.
  intros Hm Hk s. specialize (Hm s). unfold bind.
  destruct (m s) as [r1 s1]. destruct Hm as [[v ->] [evs1 [Ht1 HP1]]].
  specialize (Hk v s1). destruct (k v s1) as [r2 s2].
  destruct Hk as [Hr [evs2 [Ht2 HP2]]]. split; [exact Hr|].
  exists (evs1 ++ evs2). rewrite Ht2, Ht1, app_assoc. split; [reflexivity|].
  exists (calls evs1), (calls evs2). rewrite calls_app. auto.
Qed.

(** Membership in a concrete list of events. *)
Ltac in_tac := solve [repeat (first [left; reflexivity | right])].

(** Discharge [recovers] for a step: every answer of the world is a case,
    and a raised call is matched against the events of the run. *)
Ltac recover_tac :=
  intro s; unfold bind, print, try_except, nfl_call, write_json, ret, emit;
  cbv beta iota zeta; cbn [trace heap];
  repeat (match goal with
          | |- context [nfl_api ?w ?h ?f ?y ?c] => destruct (nfl_api w h f y c)
          | |- context [write_file ?w ?h ?p] => destruct (write_file w h p) as [[]|]
          | |- context [stat_columns ?t] => destruct (stat_columns t)
          end; cbv beta iota zeta; cbn [trace heap]);
  eexists; (split; [rewrite <- !app_assoc; reflexivity|]); cbn [app];
  (split; [eexists; reflexivity|]);
  intros ?fn0 ?ys0 ?cols0 ?e0 Hin; cbn [In] in Hin;
  repeat match goal with H : _ \/ _ |- _ => destruct H as [H|H] end;
  match goal with
  | H : False |- _ => destruct H
  | H : _ = _ |- _ =>
      first [ discriminate H
            | injection H; intros; subst;
              first [ discriminate | split; [reflexivity|in_tac] ] ]
  end.

(** C8: every upstream fetch step catches a failure of its upstream call:
    whichever call of the run raises, and whatever the world answers
    before or after it, the step returns normally, prints the error and
    returns its empty result ([pd.DataFrame()] for the five fetch steps,
    [{}] for the projection dataset). The full pipeline returns normally
    whatever the world answers, and every one of its steps runs: the
    upstream calls are those of the eight steps, in order (the projection
    step stops calling at its first failure). *)
Theorem fetch_failure_recovered (w : env) (self : NFLDataPipeline) :
  (forall years, recovers (fetch_roster_data w self years) []
     (fun msg => "Error fetching roster data: " ++ msg)%string) /\
  (forall years stat_type, recovers (fetch_player_stats w self years stat_type) []
     (fun msg => "Error fetching " ++ stat_type ++ " stats: " ++ msg)%string) /\
  (forall years, recovers (fetch_schedule_data w self years) []
     (fun msg => "Error fetching schedule: " ++ msg)%string) /\
  recovers (fetch_injury_reports w self) []
     (fun msg => "Error fetching injuries: " ++ msg)%string /\
  (forall years, recovers (fetch_team_data w self years) []
     (fun msg => "Error fetching team data: " ++ msg)%string) /\
  (forall historical_years,
     recovers (create_player_projections_dataset w self historical_years) EmptyDataset
       (fun msg => "Error creating projection dataset: " ++ msg)%string) /\
  (forall s,
     let '(r, s') := run_full_pipeline w self s in
     r = Ok tt /\ exists evs pc, trace s' = trace s ++ evs /\
       calls evs = ["import_team_desc"; "import_rosters"; "import_schedules";
                    "import_injuries"; "import_weekly_data"; "import_weekly_data";
                    "import_weekly_data"] ++ pc /\
       projection_calls pc).
Proof.
  split; [intro years; unfold recovers, fetch_roster_data; recover_tac|].
  split; [intros years stat_type; unfold recovers, fetch_player_stats; recover_tac|].
  split; [intro years; unfold recovers, fetch_schedule_data; recover_tac|].
  split; [unfold recovers, fetch_injury_reports; recover_tac|].
  split; [intro years; unfold recovers, fetch_team_data; recover_tac|].
  split; [intro hy; unfold recovers, create_player_projections_dataset; recover_tac|].
  intro s.
  assert (H : runs_with_calls (run_full_pipeline w self)
                (fun c => exists pc, c = ["import_team_desc"; "import_rosters";
                  "import_schedules"; "import_injuries"; "import_weekly_data";
                  "import_weekly_data"; "import_weekly_data"] ++ pc /\
                  projection_calls pc)).
  { unfold run_full_pipeline. eapply runs_with_calls_weaken.
    - repeat (apply runs_with_calls_seq;
              [first [ apply print_calls | apply fetch_team_data_calls
                     | apply fetch_roster_data_calls | apply fetch_schedule_data_calls
                     | apply fetch_injury_reports_calls | apply fetch_player_stats_calls
                     | apply create_player_projections_dataset_calls ]
              | intros _ ]).
      apply print_calls.
    - intros c Hc. cbv beta in Hc.
      repeat match goal with
             | H : exists _, _ |- _ => destruct H
             | H : _ /\ _ |- _ => destruct H
             | H : @eq (list string) _ _ |- _ => subst
             end.
      eexists. split; [|eassumption]. cbn. rewrite ?app_nil_r. reflexivity. }
  specialize (H s). destruct (run_full_pipeline w self s) as [r s'].
  destruct H as [[[] ->] [evs [Ht [pc [Hc Hpc]]]]].
  split; [reflexivity|]. exists evs, pc. auto.
Qed.

(** A schedule import that times out once, in a world that otherwise
    answers: the step prints the error and returns the empty frame. *)
Lemma fetch_failure_recovered_witness :
  let '(r, s') := fetch_schedule_data timeout_once_env creds None (mkState [] []) in
  In (ECall "import_schedules" [2024%Z] [] (Exc (PyExc "Read timed out"))) (trace s') /\
  r = Ok [] /\ In (EPrint "Error fetching schedule: Read timed out") (trace s').
Proof.
  destruct (fetch_failure_recovered timeout_once_env creds) as (_ & _ & Hs & _).
  specialize (Hs None (mkState [] [])).
  destruct (fetch_schedule_data timeout_once_env creds None (mkState [] [])) as [r s'] eqn:E.
  destruct Hs as [evs [Ht [_ Hrec]]]. cbn [trace app] in Ht. subst evs.
  assert (Hc : In (ECall "import_schedules" [2024%Z] [] (Exc (PyExc "Read timed out")))
                  (trace s')).
  { vm_compute in E. injection E as _ <-. vm_compute. right. left. reflexivity. }
  destruct (Hrec _ _ _ _ Hc) as [Hr Hp].
  split; [exact Hc|]. split; [exact Hr|exact Hp].
Defined.

(** ** The simplified pipeline *)

(** C9: in [run_simple_pipeline], a step that raises (a file write, the
    only operation of its steps that can fail) makes the run print the
    failure and raise the very same exception; the run raises exactly
    when a write raised. *)
Theorem run_simple_pipeline_reraises (w : env) (self : SimpleNFLDataFetcher) (s : state) :
  let '(r, s') := run_simple_pipeline w self s in
  exists evs, trace s' = trace s ++ evs /\
  (forall e, r = Exc e <-> exists path, In (EWrite path (Exc e)) evs) /\
  (forall e, r = Exc e ->
     exists evs0, evs = evs0 ++ [EPrint ("Pipeline failed: " ++ exn_msg e)%string]).
Proof.
  unfold run_simple_pipeline, fetch_teams_data, create_sample_rosters,
    create_sample_stats, create_projection_dataset, save_stats_files.
  unfold bind, print, try_except, write_json, ret, raise, emit.
  cbv beta iota zeta. cbn [trace heap].
  repeat (match goal with
          | |- context [write_file ?w ?h ?p] => destruct (write_file w h p) as [[]|]
          end; cbv beta iota zeta; cbn [trace heap]);
  (eexists; split; [rewrite <- !app_assoc; reflexivity|]); cbn [app];
  (split; [intro e'; split|]).
  all: try (intros [p Hin];
            repeat (destruct Hin as [Hin|Hin]; [try discriminate; injection Hin as _ ->|]);
            try reflexivity; destruct Hin).
  all: try (intro Hr; discriminate).
  all: try (intro Hr; injection Hr as <-; eexists;
            repeat (first [left; reflexivity | right])).
  all: try (intros e' Hr; injection Hr as <-;
            match goal with |- exists l0, ?l = l0 ++ _ => exists (removelast l) end;
            reflexivity).
  all: try (intros e' Hr; discriminate).
Qed.


(** ** Further properties of the uploader *)

Lemma range_go_length (fuel start stop step : nat) :
  0 < step -> stop - start <= fuel ->
  length (range_go fuel start stop step) = (stop - start + step - 1) / step.
Proof.
  intros Hs. revert start. induction fuel as [|f IH]; intros start Hf; cbn [range_go length].
  - replace (stop - start) with 0 by lia. symmetry. apply Nat.div_small. lia.
  - destruct (Nat.ltb start stop) eqn:Hlt.
    + apply Nat.ltb_lt in Hlt. cbn [length]. rewrite IH by lia.
      destruct (Nat.le_gt_cases (stop - start) step).
      * replace (stop - (start + step)) with 0 by lia.
        rewrite (Nat.div_small (0 + step - 1)) by lia.
        apply Nat.div_unique with (r := stop - start - 1); lia.
      * replace (stop - start + step - 1) with ((stop - (start + step) + step - 1) + 1 * step)
          by lia.
        rewrite Nat.div_add by lia. lia.
    + apply Nat.ltb_ge in Hlt. replace (stop - start) with 0 by lia.
      symmetry. apply Nat.div_small. lia.
Qed.

Lemma range_go_bounds (fuel start stop step i : nat) :
  In i (range_go fuel start stop step) -> start <= i < stop.
Proof.
  revert start. induction fuel as [|f IH]; intros start Hin; cbn [range_go] in Hin; [destruct Hin|].
  destruct (Nat.ltb start stop) eqn:Hlt; [|destruct Hin].
  apply Nat.ltb_lt in Hlt. destruct Hin as [<-|Hin]; [lia|].
  specialize (IH _ Hin). lia.
Qed.

Lemma py_range_mult (n bs : nat) :
  0 < bs -> py_range 0 n bs = map (fun k => k * bs) (seq 0 ((n + bs - 1) / bs)).
Proof.
  intro Hbs. unfold py_range. rewrite range_go_shape at 1.
  rewrite range_go_length by lia. rewrite Nat.sub_0_r. reflexivity.
Qed.

Lemma firstn_add {A} (n m : nat) (l : list A) :
  firstn (n + m) l = firstn n l ++ firstn m (skipn n l).
Proof.
  revert l. induction n as [|n IH]; intro l; [reflexivity|].
  destruct l as [|x l]; cbn; [rewrite firstn_nil; reflexivity|]. f_equal. apply IH.
Qed.

Lemma concat_firstn_slices (xs : list record) (k a N : nat) :
  concat (firstn k (map (fun j => firstn 100 (skipn (100 * j) xs)) (seq a N)))
  = firstn (100 * Nat.min k N) (skipn (100 * a) xs).
Proof.
  revert a N. induction k as [|k IH]; intros a N; [reflexivity|].
  destruct N as [|N]; [rewrite Nat.min_0_r; reflexivity|].
  cbn [seq map firstn concat]. rewrite IH.
  replace (100 * Nat.min (S k) (S N)) with (100 + 100 * Nat.min k N) by lia.
  rewrite firstn_add, skipn_skipn. do 3 f_equal. lia.
Qed.

Lemma batches_nonempty (xs : list record) :
  Forall (fun b => 1 <= length b <= 100) (batches xs).
Proof.
  unfold batches, py_range. apply Forall_map, Forall_forall. intros i Hin.
  apply range_go_bounds in Hin. rewrite length_firstn, length_skipn. lia.
Qed.

Lemma upload_no_creds (w : env) self data_type xs :
  creds_present self = false ->
  trace (snd (upload w self data_type xs))
  = [EPrint "Supabase credentials not found, skipping database update"] /\
  fst (upload w self data_type xs) = Ok false.
Proof.
  intro Hc. unfold upload, update_supabase_database. rewrite (no_creds_if _ Hc).
  split; reflexivity.
Qed.

(** The batch loop as seen in the trace: every POST carries [headers],
    and a run that returns [true] prints one progress line per index. *)
Lemma batch_loop_trace (w : env) url headers data n bs idxs (s : state) :
  let '(r, s') := batch_loop w url headers data n bs idxs s in
  exists evs, trace s' = trace s ++ evs /\
    Forall (eq headers) (post_headers evs) /\
    (r = Ok true ->
     prints evs = map (fun i => "Updated batch " ++ show_nat (i / bs + 1) ++ "/"
                               ++ show_nat ((n + bs - 1) / bs))%string idxs).
Proof.
  revert s. induction idxs as [|i rest IH]; intro s; cbn [batch_loop].
  - exists []. rewrite app_nil_r. repeat split; constructor.
  - unfold bind, py_slice, requests_post.
    destruct (read_list data s) as [ys|e0];
      [|exists []; rewrite app_nil_r; repeat split; [constructor|discriminate]].
    cbn [alloc].
    destruct (read_list _ _) as [body|e0];
      [|exists []; rewrite app_nil_r; repeat split; [constructor|discriminate]].
    cbn [trace emit].
    destruct (http_post w (trace s) url headers body) as [resp|e] eqn:Ho.
    + destruct (negb (status_ok resp)).
      * unfold print, ret, emit. cbn [trace]. eexists.
        split; [rewrite <- !app_assoc; reflexivity|].
        split; [repeat constructor|discriminate].
      * unfold print, emit. cbn [trace].
        match goal with
        | |- context [batch_loop w url headers data n bs rest ?s2] =>
            specialize (IH s2); destruct (batch_loop w url headers data n bs rest s2) as [r s']
        end.
        destruct IH as [evs [Ht [Hh Hp]]]. cbn [trace] in Ht.
        eexists. split; [rewrite Ht, <- !app_assoc; reflexivity|].
        cbn [post_headers prints app].
        split; [constructor; [reflexivity|exact Hh]|].
        intro Hr. rewrite (Hp Hr). reflexivity.
    + eexists. split; [reflexivity|]. split; [repeat constructor|discriminate].
Qed.

Lemma post_headers_app (t1 t2 : list event) :
  post_headers (t1 ++ t2) = post_headers t1 ++ post_headers t2.
Proof.
  induction t1 as [|ev t1 IH]; [reflexivity|].
  destruct ev; cbn; rewrite ?IH; reflexivity.
Qed.

Lemma prints_app (t1 t2 : list event) : prints (t1 ++ t2) = prints t1 ++ prints t2.
Proof.
  induction t1 as [|ev t1 IH]; [reflexivity|].
  destruct ev; cbn; rewrite ?IH; reflexivity.
Qed.

Lemma write_paths_app (t1 t2 : list event) :
  write_paths (t1 ++ t2) = write_paths t1 ++ write_paths t2.
Proof.
  induction t1 as [|ev t1 IH]; [reflexivity|].
  destruct ev; cbn; rewrite ?IH; reflexivity.
Qed.

Lemma progress_lines (n : nat) :
  map (fun i => "Updated batch " ++ show_nat (i / 100 + 1) ++ "/"
                ++ show_nat ((n + 100 - 1) / 100))%string (py_range 0 n 100)
  = map (fun k => "Updated batch " ++ show_nat (k + 1) ++ "/"
                  ++ show_nat ((n + 100 - 1) / 100))%string (seq 0 ((n + 100 - 1) / 100)).
Proof.
  rewrite py_range_mult by lia. rewrite map_map. apply map_ext. intro k.
  rewrite Nat.div_mul by lia. reflexivity.
Qed.

Lemma update_trace (w : env) self data_type data (s : state) :
  let '(r, s') := update_supabase_database w self data_type data s in
  exists evs, trace s' = trace s ++ evs /\
    Forall (eq [("apikey", py_str (supabase_key self));
                ("Authorization", "Bearer " ++ py_str (supabase_key self))%string;
                ("Content-Type", "application/json"); ("Prefer", "return=minimal")])
           (post_headers evs) /\
    (r = Ok true -> exists xs, read_list data s = Ok xs /\
       prints evs
       = [("Updating Supabase with " ++ data_type ++ " data (" ++ show_nat (length xs)
           ++ " records)...")%string]
         ++ map (fun k => "Updated batch " ++ show_nat (k + 1) ++ "/"
                          ++ show_nat ((length xs + 100 - 1) / 100))%string
                (seq 0 ((length xs + 100 - 1) / 100))
         ++ [("Successfully updated " ++ show_nat (length xs) ++ " " ++ data_type
              ++ " records in Supabase")%string]).
Proof.
  unfold update_supabase_database.
  destruct (_ || _).
  - unfold bind, print, ret, emit. cbn [trace]. eexists.
    split; [reflexivity|]. split; [constructor|discriminate].
  - unfold bind at 1, py_len at 1.
    destruct (read_list data s) as [xs|e0] eqn:Hrd; cbv beta iota zeta;
      [|exists []; rewrite app_nil_r; split; [reflexivity|split; [constructor|discriminate]]].
    unfold bind at 1, print at 1, emit at 1, try_except.
    unfold bind at 1, py_len at 1.
    replace (read_list data _) with (Ok xs : res (list record)) by (symmetry; exact Hrd).
    unfold bind at 1.
    match goal with
    | |- context [batch_loop w ?u ?h data ?n ?b ?i ?s1] =>
        pose proof (batch_loop_trace w u h data n b i s1) as Hl;
        destruct (batch_loop w u h data n b i s1) as [r s'] eqn:Hrun
    end.
    destruct Hl as [evs [Ht [Hh Hp]]]. cbn [trace] in Ht.
    destruct r as [[|]|e]; cbv beta iota zeta.
    + unfold print, ret, emit, bind. cbv beta iota zeta. cbn [trace]. rewrite Ht.
      eexists. split; [rewrite <- !app_assoc; reflexivity|].
      rewrite !post_headers_app. cbn [post_headers app]. rewrite ?app_nil_r.
      split; [exact Hh|].
      intros _. exists xs. split; [reflexivity|].
      cbn [prints app]. rewrite !prints_app. cbn [prints app]. rewrite (Hp eq_refl), progress_lines. reflexivity.
    + unfold ret. cbv beta iota zeta. rewrite Ht. eexists. split; [rewrite <- !app_assoc; reflexivity|].
      split; [exact Hh|discriminate].
    + unfold print, ret, emit, bind. cbv beta iota zeta. cbn [trace]. rewrite Ht.
      eexists. split; [rewrite <- !app_assoc; reflexivity|].
      rewrite !post_headers_app. cbn [post_headers app]. rewrite ?app_nil_r.
      split; [exact Hh|discriminate].
Qed.

Lemma in_firstn {X} (n : nat) (l : list X) (x : X) : In x (firstn n l) -> In x l.
Proof. intro H. rewrite <- (firstn_skipn n l). apply in_or_app. left. exact H. Qed.

(** X1: for a positive batch size [bs], the loop of
    [update_supabase_database] visits [i = 0, bs, 2 bs, ...]: exactly
    [(n + bs - 1) / bs] indices, the total its progress message prints;
    the k-th index is below [n] and is announced as batch [i / bs + 1 = k + 1]. *)
Theorem batch_loop_indices (n bs : nat) :
  0 < bs ->
  py_range 0 n bs = map (fun k => k * bs) (seq 0 ((n + bs - 1) / bs)) /\
  forall k i, nth_error (py_range 0 n bs) k = Some i ->
    i < n /\ i / bs + 1 = k + 1 /\ k + 1 <= (n + bs - 1) / bs.
Proof.
  intro Hbs. split; [apply py_range_mult; exact Hbs|].
  intros k i Hk.
  assert (Hin : In i (py_range 0 n bs)) by (apply nth_error_In with k; exact Hk).
  apply range_go_bounds in Hin.
  rewrite py_range_mult, nth_error_map, nth_error_seq in Hk by exact Hbs.
  destruct (Nat.ltb k ((n + bs - 1) / bs)) eqn:Hlt; [|discriminate].
  apply Nat.ltb_lt in Hlt. cbn in Hk. injection Hk as <-.
  rewrite Nat.div_mul by lia. lia.
Qed.

Lemma batch_loop_indices_witness :
  0 < 100 /\
  py_range 0 250 100 = map (fun k => k * 100) (seq 0 ((250 + 100 - 1) / 100)) /\
  forall k i, nth_error (py_range 0 250 100) k = Some i ->
    i < 250 /\ i / 100 + 1 = k + 1 /\ k + 1 <= (250 + 100 - 1) / 100.
Proof. split; [lia|]. apply (batch_loop_indices 250 100). lia. Defined.

(** X2: every POST body has between 1 and 100 records: no empty batch is
    ever sent, with or without credentials. *)
Theorem upload_batch_sizes (w : env) (self : NFLDataPipeline) (data_type : string)
    (xs : list record) :
  Forall (fun p => 1 <= length (post_body p) <= 100)
         (posts (trace (snd (upload w self data_type xs)))).
Proof.
  destruct (creds_present self) eqn:Hc.
  - pose proof (upload_spec w self data_type xs Hc) as H.
    destruct (upload w self data_type xs) as [r s'].
    destruct H as [_ [b [_ [_ [_ [Hbody _]]]]]]. cbn [snd].
    apply Forall_forall. intros p Hp.
    assert (Hin : In (post_body p) (batches xs)).
    { apply in_firstn with (length (posts (trace s'))). rewrite <- Hbody.
      apply in_map. exact Hp. }
    pose proof (batches_nonempty xs) as Hne. rewrite Forall_forall in Hne.
    exact (Hne _ Hin).
  - destruct (upload_no_creds w self data_type xs Hc) as [-> _]. constructor.
Qed.

(** X3: the records sent, POST after POST, are exactly the first
    [100 * #POSTs] records of the input, in order: nothing is skipped,
    repeated or reordered, even when the upload stops early. *)
Theorem upload_sends_prefix (w : env) (self : NFLDataPipeline) (data_type : string)
    (xs : list record) :
  let ps := posts (trace (snd (upload w self data_type xs))) in
  concat (map post_body ps) = firstn (100 * length ps) xs.
Proof.
  cbv zeta. destruct (creds_present self) eqn:Hc.
  - pose proof (upload_spec w self data_type xs Hc) as H.
    destruct (upload w self data_type xs) as [r s'].
    destruct H as [_ [b [_ [_ [_ [Hbody _]]]]]]. cbn [snd].
    set (k := length (posts (trace s'))) in *.
    assert (Hk : k <= length (batches xs)).
    { apply (f_equal (@length (list record))) in Hbody.
      rewrite length_map, length_firstn in Hbody. lia. }
    rewrite Hbody, batches_shape, concat_firstn_slices, Nat.min_l by exact Hk.
    rewrite Nat.mul_0_r. reflexivity.
  - destruct (upload_no_creds w self data_type xs Hc) as [-> _]. reflexivity.
Qed.

(** X4: every POST of the uploader carries the four headers built from the
    key: [apikey], [Authorization: Bearer key], [Content-Type:
    application/json] and [Prefer: return=minimal]. *)
Theorem update_post_headers (w : env) (self : NFLDataPipeline) (data_type : string)
    (data : loc) (s : state) :
  exists evs, trace (snd (update_supabase_database w self data_type data s)) = trace s ++ evs /\
    Forall (eq [("apikey", py_str (supabase_key self));
                ("Authorization", "Bearer " ++ py_str (supabase_key self))%string;
                ("Content-Type", "application/json"); ("Prefer", "return=minimal")])
           (post_headers evs).
Proof.
  pose proof (update_trace w self data_type data s) as H.
  destruct (update_supabase_database w self data_type data s) as [r s'].
  destruct H as [evs [Ht [Hh _]]]. exists evs. split; assumption.
Qed.

(** X5: a run that returns [true] has printed exactly the announcement with
    the record count, one line [Updated batch k/T] for each batch
    [k = 1 .. T] with [T = (len + 99) / 100], and the final success line. *)
Theorem update_success_log (w : env) (self : NFLDataPipeline) (data_type : string)
    (data : loc) (s : state) :
  fst (update_supabase_database w self data_type data s) = Ok true ->
  exists xs evs, read_list data s = Ok xs /\
    trace (snd (update_supabase_database w self data_type data s)) = trace s ++ evs /\
    prints evs
    = [("Updating Supabase with " ++ data_type ++ " data (" ++ show_nat (length xs)
        ++ " records)...")%string]
      ++ map (fun k => "Updated batch " ++ show_nat (k + 1) ++ "/"
                       ++ show_nat ((length xs + 100 - 1) / 100))%string
             (seq 0 ((length xs + 100 - 1) / 100))
      ++ [("Successfully updated " ++ show_nat (length xs) ++ " " ++ data_type
           ++ " records in Supabase")%string].
Proof.
  pose proof (update_trace w self data_type data s) as H.
  destruct (update_supabase_database w self data_type data s) as [r s'].
  cbn [fst snd]. intro Hr.
  destruct H as [evs [Ht [_ Hp]]]. destruct (Hp Hr) as [xs [Hxs Hpr]].
  exists xs, evs. auto.
Qed.

Lemma update_success_log_witness :
  fst (update_supabase_database (status_env (fun _ => 201%Z)) creds "players" 0
         (mkState [] [recs 250])) = Ok true /\
  exists xs evs, read_list 0 (mkState [] [recs 250]) = Ok xs /\
    trace (snd (update_supabase_database (status_env (fun _ => 201%Z)) creds "players" 0
                  (mkState [] [recs 250]))) = trace (mkState [] [recs 250]) ++ evs /\
    prints evs
    = [("Updating Supabase with " ++ "players" ++ " data (" ++ show_nat (length xs)
        ++ " records)...")%string]
      ++ map (fun k => "Updated batch " ++ show_nat (k + 1) ++ "/"
                       ++ show_nat ((length xs + 100 - 1) / 100))%string
             (seq 0 ((length xs + 100 - 1) / 100))
      ++ [("Successfully updated " ++ show_nat (length xs) ++ " " ++ "players"
           ++ " records in Supabase")%string].
Proof.
  assert (H : fst (update_supabase_database (status_env (fun _ => 201%Z)) creds "players" 0
                     (mkState [] [recs 250])) = Ok true) by (vm_compute; reflexivity).
  split; [exact H|].
  exact (update_success_log (status_env (fun _ => 201%Z)) creds "players" 0
           (mkState [] [recs 250]) H).
Defined.

(** ** The fetch steps, seen from outside *)

(** Discharge [fetch_contract] for a step that makes one call and one
    write: every answer of the world is a case. *)
Ltac fetch_contract_tac :=
  intro s; unfold bind, print, try_except, nfl_call, write_json, ret, emit;
  cbv beta iota zeta; cbn [trace heap];
  repeat (match goal with
          | |- context [nfl_api ?w ?h ?f ?y ?c] => destruct (nfl_api w h f y c)
          | |- context [write_file ?w ?h ?p] => destruct (write_file w h p) as [[]|]
          | |- context [stat_columns ?t] => destruct (stat_columns t)
          end; cbv beta iota zeta; cbn [trace heap]);
  eexists; (split; [rewrite <- !app_assoc; reflexivity|]); cbn [app];
  (split; [reflexivity|]); (split; [reflexivity|]);
  (split;
   [intros ?p ?o Hin;
    repeat (destruct Hin as [Hin|Hin];
            [first [discriminate Hin
                   | injection Hin as <- <-; split; [reflexivity|eexists; in_tac]]|]);
    destruct Hin|]);
  first [ left; eexists; split; [in_tac|split; [in_tac|reflexivity]]
        | right; eexists; split;
          [first [left; in_tac | right; in_tac] | split; [reflexivity|in_tac]] ].

(** X6: [fetch_roster_data] makes one [import_rosters] call, never posts,
    writes only [output_dir/rosters_<years>.json] and only after the call
    returned, and returns the imported frame once it is saved, or the empty
    frame after printing the error of a raised call or save. *)
Theorem fetch_roster_data_contract (w : env) (self : NFLDataPipeline) (years : option (list Z)) :
  fetch_contract "import_rosters" (default_years self years) []
    (output_dir self ++ "/rosters_" ++ years_tag (default_years self years) ++ ".json")%string
    (fun msg => "Error fetching roster data: " ++ msg)%string (fetch_roster_data w self years).
Proof. unfold fetch_contract, fetch_roster_data. fetch_contract_tac. Qed.

(** X7: [fetch_player_stats] makes one [import_weekly_data] call with the
    columns of [stat_type] (all columns for another type), writes only
    [output_dir/<stat_type>_stats_<years>.json], and returns the frame
    once saved or the empty frame after printing the error. *)
Theorem fetch_player_stats_contract (w : env) (self : NFLDataPipeline)
    (years : option (list Z)) (stat_type : string) :
  fetch_contract "import_weekly_data" (default_years self years)
    (match stat_columns stat_type with Some cols => cols | None => [] end)
    (output_dir self ++ "/" ++ stat_type ++ "_stats_" ++ years_tag (default_years self years)
     ++ ".json")%string
    (fun msg => "Error fetching " ++ stat_type ++ " stats: " ++ msg)%string
    (fetch_player_stats w self years stat_type).
Proof. unfold fetch_contract, fetch_player_stats. fetch_contract_tac. Qed.

(** X8: [fetch_schedule_data] makes one [import_schedules] call, writes only
    [output_dir/schedule_<years>.json], and returns the frame once saved
    or the empty frame after printing the error. *)
Theorem fetch_schedule_data_contract (w : env) (self : NFLDataPipeline)
    (years : option (list Z)) :
  fetch_contract "import_schedules" (default_years self years) []
    (output_dir self ++ "/schedule_" ++ years_tag (default_years self years) ++ ".json")%string
    (fun msg => "Error fetching schedule: " ++ msg)%string (fetch_schedule_data w self years).
Proof. unfold fetch_contract, fetch_schedule_data. fetch_contract_tac. Qed.

(** X9: [fetch_injury_reports] imports the injuries of [current_season]
    alone, writes only [output_dir/injuries_<season>.json], and returns the
    frame once saved or the empty frame after printing the error. *)
Theorem fetch_injury_reports_contract (w : env) (self : NFLDataPipeline) :
  fetch_contract "import_injuries" [current_season self] []
    (output_dir self ++ "/injuries_" ++ show_Z (current_season self) ++ ".json")%string
    (fun msg => "Error fetching injuries: " ++ msg)%string (fetch_injury_reports w self).
Proof. unfold fetch_contract, fetch_injury_reports. fetch_contract_tac. Qed.

(** X10: [fetch_team_data] makes one [import_team_desc] call without
    arguments (its [years] is unused), writes only [output_dir/teams.json],
    and returns the frame once saved or the empty frame after printing the
    error. *)
Theorem fetch_team_data_contract (w : env) (self : NFLDataPipeline) (years : option (list Z)) :
  fetch_contract "import_team_desc" [] [] (output_dir self ++ "/teams.json")%string
    (fun msg => "Error fetching team data: " ++ msg)%string (fetch_team_data w self years).
Proof. unfold fetch_contract, fetch_team_data. fetch_contract_tac. Qed.

(** X11: [create_player_projections_dataset] passes the same years to its
    three imports, never posts, and writes [projection_dataset.json] only
    after all three returned; it returns the dataset of the three frames
    and the years once the file is written, or [{}] after printing the
    error of a raised import or write. *)
Theorem create_player_projections_dataset_contract (w : env) (self : NFLDataPipeline)
    (historical_years : option (list Z)) (s : state) :
  let hy := match historical_years with
            | Some ys => ys
            | None => z_range 2018 (current_season self + 1)
            end in
  let path := (output_dir self ++ "/projection_dataset.json")%string in
  let '(r, s') := create_player_projections_dataset w self historical_years s in
  exists evs, trace s' = trace s ++ evs /\ posts evs = [] /\
  (forall p o, In (EWrite p o) evs ->
     p = path /\ exists wk se pb cols,
       In (ECall "import_weekly_data" hy [] (Ok wk)) evs /\
       In (ECall "import_seasonal_data" hy [] (Ok se)) evs /\
       In (ECall "import_pbp_data" hy cols (Ok pb)) evs) /\
  ((exists wk se pb cols,
      In (ECall "import_weekly_data" hy [] (Ok wk)) evs /\
      In (ECall "import_seasonal_data" hy [] (Ok se)) evs /\
      In (ECall "import_pbp_data" hy cols (Ok pb)) evs /\
      In (EWrite path (Ok tt)) evs /\ r = Ok (Dataset wk se pb hy)) \/
   (exists e, ((exists fn cols, In (ECall fn hy cols (Exc e)) evs) \/
               In (EWrite path (Exc e)) evs) /\
              r = Ok EmptyDataset /\
              In (EPrint ("Error creating projection dataset: " ++ exn_msg e)%string) evs)).
Proof.
  unfold create_player_projections_dataset.
  unfold bind, print, try_except, nfl_call, write_json, ret, emit.
  cbv beta iota zeta; cbn [trace heap].
  repeat (match goal with
          | |- context [nfl_api ?w ?h ?f ?y ?c] => destruct (nfl_api w h f y c)
          | |- context [write_file ?w ?h ?p] => destruct (write_file w h p) as [[]|]
          end; cbv beta iota zeta; cbn [trace heap]);
  eexists; (split; [rewrite <- !app_assoc; reflexivity|]); cbn [app];
  (split; [reflexivity|]);
  (split;
   [intros ?p ?o Hin;
    repeat (destruct Hin as [Hin|Hin];
            [first [discriminate Hin
                   | injection Hin as <- <-;
                     split; [reflexivity|do 4 eexists; split; [in_tac|split; in_tac]]]|]);
    destruct Hin|]);
  first [ left; do 4 eexists; split; [in_tac|split; [in_tac|split; [in_tac|split; [in_tac|reflexivity]]]]
        | right; eexists; split;
          [first [left; do 2 eexists; in_tac | right; in_tac] | split; [reflexivity|in_tac]] ].
Qed.

(** ** Default years, the full pipeline and the simplified pipeline *)

(** X12: [list(range(a, b))], as used for the default historical years
    [range(2018, current_season + 1)], holds each integer [a <= y < b] once,
    [b - a] of them, and nothing else (no year when [b <= a]). *)
Theorem z_range_members (a b y : Z) :
  (In y (z_range a b) <-> (a <= y < b)%Z) /\ NoDup (z_range a b) /\
  length (z_range a b) = Z.to_nat (b - a).
Proof.
  unfold z_range. split; [|split].
  - rewrite in_map_iff. split.
    + intros [k [<- Hk]]. apply in_seq in Hk. lia.
    + intro Hy. exists (Z.to_nat (y - a)). split; [lia|]. apply in_seq. lia.
  - apply NoDup_map_NoDup_ForallPairs; [|apply seq_NoDup].
    intros x x' _ _ H. lia.
  - rewrite length_map, length_seq. reflexivity.
Qed.

Lemma emits_only_bind {A B} (m : M A) (k : A -> M B) (Q : event -> Prop) :
  emits_only m Q -> (forall v, emits_only (k v) Q) -> emits_only (bind m k) Q.
Proof.
  intros Hm Hk s. specialize (Hm s). unfold bind.
  destruct (m s) as [r1 s1] eqn:E. destruct Hm as [evs1 [Ht1 HQ1]]. cbn [snd] in Ht1.
  destruct r1 as [v|e]; [|exists evs1; split; assumption].
  destruct (Hk v s1) as [evs2 [Ht2 HQ2]].
  exists (evs1 ++ evs2). rewrite Ht2, Ht1, app_assoc. split; [reflexivity|].
  apply Forall_app. split; assumption.
Qed.

Lemma emits_only_ret {A} (a : A) (Q : event -> Prop) : emits_only (ret a) Q.
Proof. intro s. exists []. rewrite app_nil_r. split; [reflexivity|constructor]. Qed.

Lemma emits_only_print (msg : string) (dir : string) :
  emits_only (print msg) (local_event dir).
Proof. intro s. exists [EPrint msg]. split; [reflexivity|repeat constructor]. Qed.

(** Discharge [emits_only _ (local_event _)] for a fetch step. *)
Ltac local_tac :=
  intro s; unfold bind, print, try_except, nfl_call, write_json, ret, emit;
  cbv beta iota zeta; cbn [trace heap snd];
  repeat (match goal with
          | |- context [nfl_api ?w ?h ?f ?y ?c] => destruct (nfl_api w h f y c)
          | |- context [write_file ?w ?h ?p] => destruct (write_file w h p)
          | |- context [stat_columns ?t] => destruct (stat_columns t)
          end; cbv beta iota zeta; cbn [trace heap snd]);
  eexists; (split; [rewrite <- !app_assoc; reflexivity|]); cbn [app];
  repeat (apply Forall_cons; [cbn [local_event]; first [exact I | eexists; reflexivity]|]);
  apply Forall_nil.

Section Locality.
Variables (w : env) (self : NFLDataPipeline).

Lemma fetch_roster_data_local years :
  emits_only (fetch_roster_data w self years) (local_event (output_dir self)).
Proof. unfold fetch_roster_data. local_tac. Qed.

Lemma fetch_player_stats_local years stat_type :
  emits_only (fetch_player_stats w self years stat_type) (local_event (output_dir self)).
Proof. unfold fetch_player_stats. local_tac. Qed.

Lemma fetch_schedule_data_local years :
  emits_only (fetch_schedule_data w self years) (local_event (output_dir self)).
Proof. unfold fetch_schedule_data. local_tac. Qed.

Lemma fetch_injury_reports_local :
  emits_only (fetch_injury_reports w self) (local_event (output_dir self)).
Proof. unfold fetch_injury_reports. local_tac. Qed.

Lemma fetch_team_data_local years :
  emits_only (fetch_team_data w self years) (local_event (output_dir self)).
Proof. unfold fetch_team_data. local_tac. Qed.

Lemma create_player_projections_dataset_local years :
  emits_only (create_player_projections_dataset w self years) (local_event (output_dir self)).
Proof. unfold create_player_projections_dataset. local_tac. Qed.

Lemma run_full_pipeline_local_steps :
  emits_only (run_full_pipeline w self) (local_event (output_dir self)).
Proof.
  unfold run_full_pipeline.
  repeat (apply emits_only_bind;
          [first [ apply emits_only_print | apply fetch_team_data_local
                 | apply fetch_roster_data_local | apply fetch_schedule_data_local
                 | apply fetch_injury_reports_local | apply fetch_player_stats_local
                 | apply create_player_projections_dataset_local ]
          | intros _ ]).
  apply emits_only_print.
Qed.

End Locality.

(** X13: [run_full_pipeline] never sends a POST and every file it writes
    lies in [output_dir], whatever the world answers. *)
Theorem run_full_pipeline_local (w : env) (self : NFLDataPipeline) :
  emits_only (run_full_pipeline w self) (local_event (output_dir self)).
Proof. apply run_full_pipeline_local_steps. Qed.

(** X14: when every import and every write succeeds, [run_full_pipeline]
    returns normally after writing exactly eight files, in this order:
    teams, rosters, schedule, injuries, passing, rushing and receiving
    stats of the current season, then the projection dataset. *)
Theorem run_full_pipeline_files (w : env) (self : NFLDataPipeline) (s : state) :
  (forall h fn years columns, exists df, nfl_api w h fn years columns = Ok df) ->
  (forall h path, write_file w h path = Ok tt) ->
  let d := output_dir self in
  let cs := show_Z (current_season self) in
  let '(r, s') := run_full_pipeline w self s in
  r = Ok tt /\ exists evs, trace s' = trace s ++ evs /\
  write_paths evs
  = [d ++ "/teams.json"; d ++ "/rosters_" ++ cs ++ ".json"; d ++ "/schedule_" ++ cs ++ ".json";
     d ++ "/injuries_" ++ cs ++ ".json"; d ++ "/passing_stats_" ++ cs ++ ".json";
     d ++ "/rushing_stats_" ++ cs ++ ".json"; d ++ "/receiving_stats_" ++ cs ++ ".json";
     d ++ "/projection_dataset.json"]%string.
Proof.
  intros Hapi Hw.
  unfold run_full_pipeline, fetch_team_data, fetch_roster_data, fetch_schedule_data,
    fetch_injury_reports, fetch_player_stats, create_player_projections_dataset.
  unfold bind, print, try_except, nfl_call, write_json, ret, emit.
  cbv beta iota zeta; cbn [trace heap].
  repeat (match goal with
          | |- context [nfl_api w ?h ?f ?y ?c] =>
              let df := fresh "df" in let E := fresh "E" in
              destruct (Hapi h f y c) as [df E]; rewrite E
          | |- context [write_file w ?h ?p] => rewrite (Hw h p)
          | |- context [stat_columns ?t] => destruct (stat_columns t)
          end; cbv beta iota zeta; cbn [trace heap]).
  all: split; [reflexivity|];
       eexists; split; [rewrite <- !app_assoc; reflexivity|reflexivity].
Qed.

Lemma run_full_pipeline_files_witness :
  (forall h fn years columns, exists df,
     nfl_api (status_env (fun _ => 200%Z)) h fn years columns = Ok df) /\
  (forall h path, write_file (status_env (fun _ => 200%Z)) h path = Ok tt) /\
  let '(r, s') := run_full_pipeline (status_env (fun _ => 200%Z)) creds (mkState [] []) in
  r = Ok tt /\ exists evs, trace s' = trace (mkState [] []) ++ evs /\
  write_paths evs
  = ["data/nfl" ++ "/teams.json"; "data/nfl" ++ "/rosters_" ++ show_Z 2024 ++ ".json";
     "data/nfl" ++ "/schedule_" ++ show_Z 2024 ++ ".json";
     "data/nfl" ++ "/injuries_" ++ show_Z 2024 ++ ".json";
     "data/nfl" ++ "/passing_stats_" ++ show_Z 2024 ++ ".json";
     "data/nfl" ++ "/rushing_stats_" ++ show_Z 2024 ++ ".json";
     "data/nfl" ++ "/receiving_stats_" ++ show_Z 2024 ++ ".json";
     "data/nfl" ++ "/projection_dataset.json"]%string.
Proof.
  assert (H1 : forall h fn years columns, exists df,
            nfl_api (status_env (fun _ => 200%Z)) h fn years columns = Ok df)
    by (intros; eexists; reflexivity).
  assert (H2 : forall h path, write_file (status_env (fun _ => 200%Z)) h path = Ok tt)
    by (intros; reflexivity).
  split; [exact H1|]. split; [exact H2|].
  exact (run_full_pipeline_files (status_env (fun _ => 200%Z)) creds (mkState [] []) H1 H2).
Defined.

(** X15: the [for filename, stats in stats_files] loop writes
    [output_dir/filename] for a prefix of the list, in order, without calls
    or POSTs; it completes only when every write succeeded, and otherwise
    raises the exception of the failed write, its last event. *)
Theorem save_stats_files_prefix (w : env) (self : SimpleNFLDataFetcher)
    (stats_files : list (string * nat)) (s : state) :
  let '(r, s') := save_stats_files w self stats_files s in
  exists evs, trace s' = trace s ++ evs /\ calls evs = [] /\ posts evs = [] /\
    (exists k, write_paths evs
               = firstn k (map (fun f => fetcher_output_dir self ++ "/" ++ fst f)%string
                               stats_files)) /\
    (r = Ok tt ->
       write_paths evs = map (fun f => fetcher_output_dir self ++ "/" ++ fst f)%string stats_files /\
       forall p o, In (EWrite p o) evs -> o = Ok tt) /\
    (forall e, r = Exc e ->
       exists pre p, evs = pre ++ [EWrite p (Exc e)] /\
                     forall p' o, In (EWrite p' o) pre -> o = Ok tt).
Proof.
  revert s. induction stats_files as [|[filename count] rest IH]; intro s; cbn [save_stats_files].
  - exists []. rewrite app_nil_r. split; [reflexivity|]. split; [reflexivity|].
    split; [reflexivity|]. split; [exists 0; reflexivity|].
    split; [intros _; split; [reflexivity|intros p o []]|].
    intros e He. discriminate He.
  - unfold bind at 1, write_json, emit.
    destruct (write_file w (trace s) _) as [[]|e] eqn:Hw; cbn [trace].
    + unfold bind at 1, print, emit. cbn [trace].
      match goal with
      | |- context [save_stats_files w self rest ?s2] =>
          specialize (IH s2); destruct (save_stats_files w self rest s2) as [r s']
      end.
      destruct IH as [evs [Ht [Hc [Hp [[k Hk] [Hok Hexc]]]]]]. cbn [trace] in Ht.
      eexists. split; [rewrite Ht, <- !app_assoc; reflexivity|]. cbn [app calls posts write_paths].
      split; [exact Hc|]. split; [exact Hp|].
      split; [exists (S k); rewrite Hk; reflexivity|].
      split.
      * intro Hr. destruct (Hok Hr) as [Hw' Hall]. split; [rewrite Hw'; reflexivity|].
        intros p o [Hin|[Hin|Hin]]; [injection Hin as _ <-; reflexivity|discriminate Hin|].
        exact (Hall p o Hin).
      * intros e He. destruct (Hexc e He) as [pre [p [-> Hpre]]].
        exists (EWrite (fetcher_output_dir self ++ "/" ++ filename) (Ok tt)
                :: EPrint ("Saved " ++ show_nat count ++ " stat records to "
                           ++ fetcher_output_dir self ++ "/" ++ filename) :: pre), p.
        split; [reflexivity|].
        intros p' o [Hin|[Hin|Hin]]; [injection Hin as _ <-; reflexivity|discriminate Hin|].
        exact (Hpre p' o Hin).
    + eexists. split; [reflexivity|]. cbn [calls posts write_paths].
      split; [reflexivity|]. split; [reflexivity|].
      split; [exists 1; reflexivity|].
      split; [intro Hr; discriminate Hr|].
      intros e' He. injection He as <-. exists []. eexists. split; [reflexivity|].
      intros p' o [].
Qed.

(** X16: [run_simple_pipeline] neither calls [nfl_data_py] nor sends a
    POST; it writes a nonempty prefix of its six files, and returns
    normally exactly when it wrote all six and none of the writes raised. *)
Theorem run_simple_pipeline_files (w : env) (self : SimpleNFLDataFetcher) (s : state) :
  let '(r, s') := run_simple_pipeline w self s in
  exists evs, trace s' = trace s ++ evs /\ calls evs = [] /\ posts evs = [] /\
    (exists k, 1 <= k /\ write_paths evs = firstn k (simple_files (fetcher_output_dir self))) /\
    (r = Ok tt <-> write_paths evs = simple_files (fetcher_output_dir self) /\
                   forall p o, In (EWrite p o) evs -> o = Ok tt).
Proof.
  unfold run_simple_pipeline, fetch_teams_data, create_sample_rosters,
    create_sample_stats, create_projection_dataset, save_stats_files.
  unfold bind, print, try_except, write_json, ret, raise, emit.
  cbv beta iota zeta. cbn [trace heap].
  repeat (match goal with
          | |- context [write_file ?w ?h ?p] => destruct (write_file w h p) as [[]|]
          end; cbv beta iota zeta; cbn [trace heap]);
  (eexists; split; [rewrite <- !app_assoc; reflexivity|]); cbn [app];
  (split; [reflexivity|]); (split; [reflexivity|]);
  (split;
   [match goal with
    | |- exists k, _ /\ write_paths ?l = _ =>
        exists (length (write_paths l)); split; [cbn [write_paths length]; lia|reflexivity]
    end|]).
  all: split.
  all: try solve [intros _; split; [reflexivity|];
                  intros ?p ?o Hin;
                  repeat (destruct Hin as [Hin|Hin];
                          [first [discriminate Hin | injection Hin as _ <-; reflexivity]|]);
                  destruct Hin].
  all: try (intros _; reflexivity).
  all: try (intro Hr; discriminate Hr).
  all: intros [_ Hall]; exfalso;
       lazymatch goal with
       | Hall : forall p o, In (EWrite p o) ?l -> _ |- _ =>
           lazymatch l with
           | context [EWrite ?p (Exc ?e)] => discriminate (Hall p (Exc e) ltac:(in_tac))
           end
       end.
Qed.

(** ** The entry points [main] *)

Lemma emits_only_bind_post {A B} (m : M A) (k : A -> M B) (Q : event -> Prop) (P : A -> Prop) :
  (forall s, exists evs, trace (snd (m s)) = trace s ++ evs /\ Forall Q evs /\
                         forall v, fst (m s) = Ok v -> P v) ->
  (forall v, P v -> emits_only (k v) Q) -> emits_only (bind m k) Q.
Proof.
  intros Hm Hk s. destruct (Hm s) as [evs1 [Ht1 [HQ1 HP]]]. unfold bind.
  destruct (m s) as [r1 s1]. cbn [fst snd] in Ht1, HP.
  destruct r1 as [v|e]; [|exists evs1; split; assumption].
  destruct (Hk v (HP v eq_refl) s1) as [evs2 [Ht2 HQ2]].
  exists (evs1 ++ evs2). rewrite Ht2, Ht1, app_assoc. split; [reflexivity|].
  apply Forall_app. split; assumption.
Qed.

Lemma NFLDataPipeline_init_local (os : os_env) (dir : string) (s : state) :
  exists evs,
    trace (snd (nfl_data_pipeline.NFLDataPipeline_init os dir s)) = trace s ++ evs /\
    Forall (local_event dir) evs /\
    forall v, fst (nfl_data_pipeline.NFLDataPipeline_init os dir s) = Ok v -> output_dir v = dir.
Proof.
  unfold nfl_data_pipeline.NFLDataPipeline_init, os_makedirs, bind, print, ret, emit.
  cbv beta iota zeta. destruct (makedirs os (trace s) dir) as [[]|e]; cbn [fst snd trace].
  - eexists. split; [rewrite <- !app_assoc; reflexivity|].
    split; [repeat constructor|]. intros v Hv. injection Hv as <-. reflexivity.
  - exists []. rewrite app_nil_r. split; [reflexivity|]. split; [constructor|].
    intros v Hv. discriminate Hv.
Qed.

(** X17: whatever the command line and the world, [main] of
    [nfl-data-pipeline.py] never sends a POST (it never uploads to
    Supabase), and every file it writes lies in [data/nfl]. *)
Theorem main_local (w : env) (os : os_env) (argv : list string) :
  emits_only (nfl_data_pipeline.main w os argv) (local_event "data/nfl").
Proof.
  unfold nfl_data_pipeline.main.
  apply emits_only_bind_post with (P := fun v => output_dir v = "data/nfl");
    [apply NFLDataPipeline_init_local|].
  intros [d cs url key] Hd. cbn [output_dir] in Hd. subst d.
  repeat match goal with
         | |- context [String.eqb ?a ?b] => destruct (String.eqb a b)
         end.
  - apply (run_full_pipeline_local_steps w (mkPipeline "data/nfl" cs url key)).
  - apply emits_only_bind; [|intros; apply emits_only_ret].
    apply (fetch_roster_data_local w (mkPipeline "data/nfl" cs url key)).
  - apply emits_only_bind; [|intros; apply emits_only_ret].
    apply (fetch_player_stats_local w (mkPipeline "data/nfl" cs url key)).
  - apply emits_only_bind; [|intros; apply emits_only_ret].
    apply (fetch_schedule_data_local w (mkPipeline "data/nfl" cs url key)).
  - apply emits_only_bind; [|intros; apply emits_only_ret].
    apply (fetch_injury_reports_local w (mkPipeline "data/nfl" cs url key)).
  - apply emits_only_bind; [|intros; apply emits_only_ret].
    apply (create_player_projections_dataset_local w (mkPipeline "data/nfl" cs url key)).
  - apply emits_only_print.
Qed.

(** X18: with an unknown command, [main] only initialises the pipeline
    and prints the usage line: no call, no write, no POST; a failed
    [os.makedirs] raises before anything is printed. *)
Theorem main_unknown_command (w : env) (os : os_env) (argv : list string) (s : state) :
  ~ In (nfl_data_pipeline.main_command argv)
       ["full"; "rosters"; "stats"; "schedule"; "injuries"; "projections"] ->
  let '(r, s') := nfl_data_pipeline.main w os argv s in
  match makedirs os (trace s) "data/nfl" with
  | Ok _ => r = Ok tt /\
            trace s' = trace s ++ [EPrint "NFL Data Pipeline initialized";
                                   EPrint ("Output directory: " ++ "data/nfl");
                                   EPrint ("Current season: " ++ show_Z 2024);
                                   EPrint nfl_data_pipeline.usage]
  | Exc e => r = Exc e /\ trace s' = trace s
  end.
Proof.
  intro Hn.
  unfold nfl_data_pipeline.main, nfl_data_pipeline.NFLDataPipeline_init, os_makedirs.
  set (c := nfl_data_pipeline.main_command argv) in *.
  assert (Hne : forall k, In k ["full"; "rosters"; "stats"; "schedule"; "injuries"; "projections"] ->
                String.eqb c k = false).
  { intros k Hk. apply String.eqb_neq. intros ->. exact (Hn Hk). }
  rewrite !Hne by (cbn; tauto).
  unfold bind, print, ret, emit. cbv beta iota zeta.
  destruct (makedirs os (trace s) "data/nfl") as [[]|e]; cbn [trace].
  - split; [reflexivity|]. rewrite <- !app_assoc. reflexivity.
  - split; reflexivity.
Qed.

Lemma main_unknown_command_witness :
  ~ In (nfl_data_pipeline.main_command ["nfl-data-pipeline.py"; "teams"])
       ["full"; "rosters"; "stats"; "schedule"; "injuries"; "projections"] /\
  let '(r, s') := nfl_data_pipeline.main (status_env (fun _ => 200%Z))
                    (mkOs (fun _ => None) (fun _ _ => Ok tt))
                    ["nfl-data-pipeline.py"; "teams"] (mkState [] []) in
  match makedirs (mkOs (fun _ => None) (fun _ _ => Ok tt)) (trace (mkState [] [])) "data/nfl" with
  | Ok _ => r = Ok tt /\
            trace s' = trace (mkState [] []) ++ [EPrint "NFL Data Pipeline initialized";
                                   EPrint ("Output directory: " ++ "data/nfl");
                                   EPrint ("Current season: " ++ show_Z 2024);
                                   EPrint nfl_data_pipeline.usage]
  | Exc e => r = Exc e /\ trace s' = trace (mkState [] [])
  end.
Proof.
  assert (Hn : ~ In (nfl_data_pipeline.main_command ["nfl-data-pipeline.py"; "teams"])
                 ["full"; "rosters"; "stats"; "schedule"; "injuries"; "projections"]).
  { cbn. intros H. repeat (destruct H as [H|H]; [discriminate H|]). exact H. }
  split; [exact Hn|].
  exact (main_unknown_command (status_env (fun _ => 200%Z))
           (mkOs (fun _ => None) (fun _ _ => Ok tt))
           ["nfl-data-pipeline.py"; "teams"] (mkState [] []) Hn).
Defined.

(** X19: when [os.makedirs("data/nfl")] raises, [main] of both scripts
    raises the same exception before any output or other effect. *)
Theorem main_makedirs_failure (w : env) (os : os_env) (argv : list string) (s : state)
    (e : exn) :
  makedirs os (trace s) "data/nfl" = Exc e ->
  nfl_data_pipeline.main w os argv s = (Exc e, s) /\
  simple_nfl_data_fetch.main w os s = (Exc e, s).
Proof.
  intro He.
  unfold nfl_data_pipeline.main, nfl_data_pipeline.NFLDataPipeline_init,
    simple_nfl_data_fetch.main, simple_nfl_data_fetch.SimpleNFLDataFetcher_init, os_makedirs.
  unfold bind. cbv beta iota zeta. rewrite He. split; reflexivity.
Qed.

Lemma main_makedirs_failure_witness :
  makedirs (mkOs (fun _ => None) (fun _ _ => Exc (PyExc "Permission denied")))
    (trace (mkState [] [])) "data/nfl" = Exc (PyExc "Permission denied") /\
  nfl_data_pipeline.main (status_env (fun _ => 200%Z))
    (mkOs (fun _ => None) (fun _ _ => Exc (PyExc "Permission denied"))) ["p"; "full"]
    (mkState [] []) = (Exc (PyExc "Permission denied"), mkState [] []) /\
  simple_nfl_data_fetch.main (status_env (fun _ => 200%Z))
    (mkOs (fun _ => None) (fun _ _ => Exc (PyExc "Permission denied"))) (mkState [] [])
  = (Exc (PyExc "Permission denied"), mkState [] []).
Proof.
  split; [reflexivity|].
  apply (main_makedirs_failure (status_env (fun _ => 200%Z))
           (mkOs (fun _ => None) (fun _ _ => Exc (PyExc "Permission denied"))) ["p"; "full"]
           (mkState [] []) (PyExc "Permission denied")).
  reflexivity.
Defined.
